(** * Authentication and authorization core of the Text-to-SQL application

    A shallow embedding of [docs/auth_system.py]: the role/permission table,
    the SQLite tables the class [AuthSystem] works on, and its operations
    [_create_default_admin], [create_user], [authenticate],
    [validate_session], [logout], [update_user_role], [deactivate_user] and
    [log_query].

    Modelling conventions.
    - A table is the list of its rows in rowid order; a new row is appended
      with an id one above the largest id present (rows are never deleted by
      this code, so this is what AUTOINCREMENT yields).  [user_preferences],
      whose primary key is [user_id] and whose order is never observed, is a
      finite map.
    - [fetchone()] on a query without ORDER BY returns the first row that
      SQLite produces: for the login query the match on [username] before
      the match on [email] (see [select_user]), otherwise the first row of a
      scan in rowid order.
    - Timestamps ([datetime] values and their ISO strings, CURRENT_TIMESTAMP)
      are integers counting microseconds; [isoformat]/[fromisoformat] is the
      identity on them.
    - What the code draws from its environment (the clock, [secrets]) is an
      explicit argument of the operation.
    - [st.error(msg)] appends [msg] to the messages of the outcome.
    - A transaction that raises before [conn.commit()] leaves the store as it
      was.  The exceptions modelled are violations of the constraints of the
      schema and the [OverflowError] of an integer argument that does not fit
      a SQLite INTEGER; the database engine itself is taken to answer every
      statement, and timestamps are unbounded. *)

From Stdlib Require Import ZArith Bool PrimFloat.
From stdpp Require Import gmap strings list.

Open Scope Z_scope.
Open Scope string_scope.

(** ** Roles and permissions *)

Module UserRole.
Definition ADMIN : string := "admin".
Definition ANALYST : string := "analyst".
Definition VIEWER : string := "viewer".
Definition GUEST : string := "guest".
End UserRole.

Module Permission.
Definition READ_DATA : string := "read_data".
Definition WRITE_DATA : string := "write_data".
Definition DELETE_DATA : string := "delete_data".
Definition MANAGE_USERS : string := "manage_users".
Definition VIEW_ANALYTICS : string := "view_analytics".
Definition EXPORT_DATA : string := "export_data".
Definition CREATE_DASHBOARDS : string := "create_dashboards".
Definition MANAGE_SCHEMAS : string := "manage_schemas".
Definition VIEW_QUERY_HISTORY : string := "view_query_history".
Definition SHARE_QUERIES : string := "share_queries".
End Permission.

(** The dict [ROLE_PERMISSIONS]. *)
Definition ROLE_PERMISSIONS : gmap string (list string) :=
  <[UserRole.ADMIN :=
      [Permission.READ_DATA; Permission.WRITE_DATA; Permission.DELETE_DATA;
       Permission.MANAGE_USERS; Permission.VIEW_ANALYTICS; Permission.EXPORT_DATA;
       Permission.CREATE_DASHBOARDS; Permission.MANAGE_SCHEMAS;
       Permission.VIEW_QUERY_HISTORY; Permission.SHARE_QUERIES]]>
  (<[UserRole.ANALYST :=
      [Permission.READ_DATA; Permission.WRITE_DATA; Permission.VIEW_ANALYTICS;
       Permission.EXPORT_DATA; Permission.CREATE_DASHBOARDS;
       Permission.VIEW_QUERY_HISTORY; Permission.SHARE_QUERIES]]>
  (<[UserRole.VIEWER :=
      [Permission.READ_DATA; Permission.VIEW_ANALYTICS; Permission.EXPORT_DATA;
       Permission.VIEW_QUERY_HISTORY]]>
  (<[UserRole.GUEST := [Permission.READ_DATA]]> ∅))).

(** [ROLE_PERMISSIONS.get(role, [])]. *)
Definition role_permissions (role : string) : list string :=
  default [] (ROLE_PERMISSIONS !! role).

(** [permission in user_info.get("permissions", [])], on the list itself. *)
Definition has_permission (permissions : list string) (permission : string) : bool :=
  existsb (String.eqb permission) permissions.

(** ** Tables *)

(** A row of [users]. *)
Record User := mkUser {
  u_id : Z;
  u_username : string;
  u_email : string;
  u_password_hash : string;
  u_salt : string;
  u_role : string;
  u_is_active : bool;
  u_created_at : Z;
  u_last_login : option Z;
  u_failed_login_attempts : Z;
  u_locked_until : option Z
}.

(** A row of [sessions]. *)
Record Session := mkSession {
  s_id : Z;
  s_user_id : Z;
  s_session_token : string;
  s_created_at : Z;
  s_expires_at : Z;
  s_is_active : bool;
  s_ip_address : string;
  s_user_agent : string
}.

(** A row of [query_history]. *)
Record QueryLogEntry := mkQueryLogEntry {
  q_id : Z;
  q_user_id : Z;
  q_natural_query : string;
  q_generated_sql : string;
  q_execution_time : option float;
  q_result_count : option Z;
  q_status : string;
  q_error_message : option string;
  q_created_at : Z
}.

(** A row of [user_preferences], without its key. *)
Record Preferences := mkPreferences {
  p_theme : string;
  p_default_limit : Z;
  p_favorite_queries : string;
  p_dashboard_layout : string;
  p_notification_settings : string
}.

(** The database file. *)
Record Store := mkStore {
  users : list User;
  sessions : list Session;
  query_history : list QueryLogEntry;
  user_preferences : gmap Z Preferences
}.

(** What a call leaves behind: the store, the returned value and the
    messages shown with [st.error]. *)
Record Outcome (A : Type) := mkOutcome {
  out_store : Store;
  out_value : A;
  out_errors : list string
}.
Arguments mkOutcome {A} _ _ _.
Arguments out_store {A} _.
Arguments out_value {A} _.
Arguments out_errors {A} _.

(** The dict returned by [authenticate]. *)
Record LoginInfo := mkLoginInfo {
  li_user_id : Z;
  li_username : string;
  li_email : string;
  li_role : string;
  li_session_token : string;
  li_permissions : list string
}.

(** The dict returned by [validate_session]. *)
Record SessionInfo := mkSessionInfo {
  si_user_id : Z;
  si_username : string;
  si_email : string;
  si_role : string;
  si_permissions : list string
}.

(** ** Time *)

Definition timedelta_minutes (m : Z) : Z := m * 60 * 1000000.
Definition timedelta_hours (h : Z) : Z := h * 3600 * 1000000.

(** [self.session_timeout]. *)
Definition session_timeout : Z := timedelta_hours 8.

(** ** Row helpers *)

(** The id given to a row inserted in a table whose ids are [ids]. *)
Definition next_rowid (ids : list Z) : Z := foldr Z.max 0 ids + 1.

(** [WHERE username = ? OR email = ?]. *)
Definition matches_user (username email : string) (u : User) : bool :=
  String.eqb (u_username u) username || String.eqb (u_email u) email.

(** [UPDATE users SET ... WHERE id = ?]. *)
Definition update_users (user_id : Z) (f : User -> User) (us : list User) : list User :=
  map (fun u => if Z.eqb (u_id u) user_id then f u else u) us.

(** [UPDATE sessions SET is_active = FALSE] on one row. *)
Definition session_off (se : Session) : Session :=
  mkSession (s_id se) (s_user_id se) (s_session_token se) (s_created_at se)
            (s_expires_at se) false (s_ip_address se) (s_user_agent se).

(** [UPDATE sessions SET is_active = FALSE WHERE session_token = ?]. *)
Definition sessions_off_by_token (session_token : string) (ss : list Session) : list Session :=
  map (fun se => if String.eqb (s_session_token se) session_token
                 then session_off se else se) ss.

(** [UPDATE sessions SET is_active = FALSE WHERE user_id = ?]. *)
Definition sessions_off_by_user (user_id : Z) (ss : list Session) : list Session :=
  map (fun se => if Z.eqb (s_user_id se) user_id then session_off se else se) ss.

(** [SET failed_login_attempts = ?, locked_until = ?]. *)
Definition set_failure (failed_attempts : Z) (lock_time : option Z) (u : User) : User :=
  mkUser (u_id u) (u_username u) (u_email u) (u_password_hash u) (u_salt u)
         (u_role u) (u_is_active u) (u_created_at u) (u_last_login u)
         failed_attempts lock_time.

(** [SET failed_login_attempts = 0, locked_until = NULL,
    last_login = CURRENT_TIMESTAMP]. *)
Definition set_success (current_timestamp : Z) (u : User) : User :=
  mkUser (u_id u) (u_username u) (u_email u) (u_password_hash u) (u_salt u)
         (u_role u) (u_is_active u) (u_created_at u) (Some current_timestamp)
         0 None.

(** [SET is_active = FALSE] on a row of [users]. *)
Definition user_off (u : User) : User :=
  mkUser (u_id u) (u_username u) (u_email u) (u_password_hash u) (u_salt u)
         (u_role u) false (u_created_at u) (u_last_login u)
         (u_failed_login_attempts u) (u_locked_until u).

(** [SET role = ?]. *)
Definition set_role (new_role : string) (u : User) : User :=
  mkUser (u_id u) (u_username u) (u_email u) (u_password_hash u) (u_salt u)
         new_role (u_is_active u) (u_created_at u) (u_last_login u)
         (u_failed_login_attempts u) (u_locked_until u).

Definition with_users (s : Store) (us : list User) : Store :=
  mkStore us (sessions s) (query_history s) (user_preferences s).

Definition with_sessions (s : Store) (ss : list Session) : Store :=
  mkStore (users s) ss (query_history s) (user_preferences s).

(** ** What a call reads from its environment *)

(** Read by [authenticate]. *)
Record AuthEnv := mkAuthEnv {
  now_lock_check : Z;       (* [datetime.now()] in the lock test *)
  now_action : Z;           (* [datetime.now()] for [lock_time] or [expires_at] *)
  current_timestamp : Z;    (* CURRENT_TIMESTAMP of the database *)
  new_session_token : string (* [self._generate_session_token()] *)
}.

(** Read by [create_user]. *)
Record CreateEnv := mkCreateEnv {
  new_salt : string;        (* [secrets.token_hex(32)] *)
  created_timestamp : Z     (* CURRENT_TIMESTAMP of the database *)
}.

(** ** Values bound to a statement *)

(** [sqlite3] binds a Python integer only if it fits the 64-bit INTEGER of
    SQLite; for any other integer the statement raises [OverflowError]. *)
Definition sqlite_integer (z : Z) : bool :=
  Z.leb (-9223372036854775808) z && Z.leb z 9223372036854775807.

(** An optional integer argument: [None] is bound as NULL. *)
Definition sqlite_integer_or_null (z : option Z) : bool :=
  match z with
  | Some z => sqlite_integer z
  | None => true
  end.

(** What SQLite keeps of an optional float bound to a REAL column: a NaN is
    stored as NULL. *)
Definition stored_real (x : option float) : option float :=
  match x with
  | Some f => if PrimFloat.is_nan f then None else Some f
  | None => None
  end.

(** ** Messages *)

Definition MSG_LOCKED : string :=
  "Account is temporarily locked due to multiple failed login attempts".
Definition MSG_DEACTIVATED : string := "Account is deactivated".
Definition MSG_TOKEN_CLASH : string :=
  "Authentication error: UNIQUE constraint failed: sessions.session_token".
Definition MSG_PREFERENCES_CLASH : string :=
  "Error creating user: UNIQUE constraint failed: user_preferences.user_id".
Definition MSG_ROLE_OVERFLOW : string :=
  "Error updating user role: Python int too large to convert to SQLite INTEGER".
Definition MSG_DEACTIVATE_OVERFLOW : string :=
  "Error deactivating user: Python int too large to convert to SQLite INTEGER".

(** ** Queries *)

(** [SELECT ... FROM users WHERE username = ? OR email = ?] with the same
    value for both, then [fetchone()].  SQLite answers the disjunction from
    the two UNIQUE indexes, that of [username] first: the row whose username
    is the login name comes before a row whose e-mail address is. *)
Definition select_user (username : string) (us : list User) : option User :=
  match List.find (fun u => String.eqb (u_username u) username) us with
  | Some u => Some u
  | None => List.find (fun u => String.eqb (u_email u) username) us
  end.

(** [locked_until and datetime.fromisoformat(locked_until) > datetime.now()]. *)
Definition is_locked (now : Z) (u : User) : bool :=
  match u_locked_until u with
  | Some t => Z.ltb now t
  | None => false
  end.

(** [SELECT ... FROM sessions s JOIN users u ON s.user_id = u.id
    WHERE s.session_token = ? AND s.is_active = TRUE]. *)
Definition select_session (session_token : string) (s : Store) : list (Session * User) :=
  flat_map
    (fun se => map (pair se)
                 (List.filter (fun u => Z.eqb (u_id u) (s_user_id se)) (users s)))
    (List.filter (fun se => String.eqb (s_session_token se) session_token
                            && s_is_active se) (sessions s)).

(** The preferences row written at account creation; [theme] and
    [default_limit] take the defaults of the schema. *)
Definition default_preferences : Preferences :=
  mkPreferences "light" 100 "[]" "{}" "{}".

(** ** Operations *)

Section AuthSystem.

(** [self._hash_password(password, salt)]: PBKDF2-HMAC-SHA256 with
    100000 rounds, in hexadecimal. *)
Variable hash_password : string -> string -> string.

(** [AuthSystem._create_default_admin].  It runs in [__init__] outside any
    [try]: [None] stands for the exception that then leaves the constructor,
    with nothing committed. *)
Definition create_default_admin (s : Store) (env : CreateEnv) : option Store :=
  let user_count := Z.of_nat (length (users s)) in
  if Z.eqb user_count 0 then
    let salt := new_salt env in
    let password_hash := hash_password "admin123" salt in
    let user_id := next_rowid (map u_id (users s)) in
    let row := mkUser user_id "admin" "admin@texttosql.com" password_hash salt
                      UserRole.ADMIN true (created_timestamp env) None 0 None in
    match user_preferences s !! user_id with
    | Some _ => None
    | None =>
        Some (mkStore (users s ++ [row]) (sessions s) (query_history s)
                      (<[user_id := default_preferences]> (user_preferences s)))
    end
  else Some s.

(** [AuthSystem.create_user]. *)
Definition create_user (s : Store) (username email password role : string)
    (env : CreateEnv) : Outcome bool :=
  if existsb (matches_user username email) (users s) then
    mkOutcome s false []
  else
    let salt := new_salt env in
    let password_hash := hash_password password salt in
    let user_id := next_rowid (map u_id (users s)) in
    let row := mkUser user_id username email password_hash salt role true
                      (created_timestamp env) None 0 None in
    match user_preferences s !! user_id with
    | Some _ => mkOutcome s false [MSG_PREFERENCES_CLASH]
    | None =>
        mkOutcome
          (mkStore (users s ++ [row]) (sessions s) (query_history s)
                   (<[user_id := default_preferences]> (user_preferences s)))
          true []
    end.

(** [AuthSystem.authenticate]. *)
Definition authenticate (s : Store) (username password : string)
    (env : AuthEnv) : Outcome (option LoginInfo) :=
  match select_user username (users s) with
  | None => mkOutcome s None []
  | Some user_data =>
      let user_id := u_id user_data in
      if is_locked (now_lock_check env) user_data then
        mkOutcome s None [MSG_LOCKED]
      else if negb (u_is_active user_data) then
        mkOutcome s None [MSG_DEACTIVATED]
      else
        let password_hash := hash_password password (u_salt user_data) in
        if negb (String.eqb password_hash (u_password_hash user_data)) then
          let failed_attempts := u_failed_login_attempts user_data + 1 in
          let lock_time :=
            if Z.leb 5 failed_attempts
            then Some (now_action env + timedelta_minutes 30)
            else None in
          mkOutcome
            (with_users s (update_users user_id
                             (set_failure failed_attempts lock_time) (users s)))
            None []
        else
          let session_token := new_session_token env in
          let expires_at := now_action env + session_timeout in
          if existsb (fun se => String.eqb (s_session_token se) session_token)
                     (sessions s)
          then mkOutcome s None [MSG_TOKEN_CLASH]
          else
            let row := mkSession (next_rowid (map s_id (sessions s))) user_id
                                 session_token (current_timestamp env)
                                 expires_at true "127.0.0.1" "Streamlit" in
            mkOutcome
              (mkStore (update_users user_id
                          (set_success (current_timestamp env)) (users s))
                       (sessions s ++ [row]) (query_history s)
                       (user_preferences s))
              (Some (mkLoginInfo user_id (u_username user_data)
                       (u_email user_data) (u_role user_data) session_token
                       (role_permissions (u_role user_data))))
              []
  end.

End AuthSystem.

(** [AuthSystem.validate_session]; [now] is [datetime.now()]. *)
Definition validate_session (s : Store) (session_token : string) (now : Z)
    : Outcome (option SessionInfo) :=
  if String.eqb session_token EmptyString then mkOutcome s None []
  else
    match head (select_session session_token s) with
    | None => mkOutcome s None []
    | Some (se, u) =>
        if Z.ltb (s_expires_at se) now then
          mkOutcome (with_sessions s (sessions_off_by_token session_token (sessions s)))
                    None []
        else if negb (u_is_active u) then mkOutcome s None []
        else
          mkOutcome s
            (Some (mkSessionInfo (s_user_id se) (u_username u) (u_email u)
                     (u_role u) (role_permissions (u_role u))))
            []
    end.

(** [AuthSystem.logout]. *)
Definition logout (s : Store) (session_token : string) : Store :=
  with_sessions s (sessions_off_by_token session_token (sessions s)).

(** [AuthSystem.deactivate_user]; an id that cannot be bound raises at the
    first statement, and the [except] branch reports it. *)
Definition deactivate_user (s : Store) (user_id : Z) : Outcome bool :=
  if sqlite_integer user_id then
    mkOutcome
      (mkStore (update_users user_id user_off (users s))
               (sessions_off_by_user user_id (sessions s))
               (query_history s) (user_preferences s))
      true []
  else mkOutcome s false [MSG_DEACTIVATE_OVERFLOW].

(** [AuthSystem.log_query]; [now] is the CURRENT_TIMESTAMP of the insert.
    When [user_id] or [result_count] cannot be bound, the [except] branch
    prints the error and nothing is written. *)
Definition log_query (s : Store) (user_id : Z) (natural_query generated_sql : string)
    (execution_time : option float) (result_count : option Z)
    (status : string) (error_message : option string) (now : Z) : Store :=
  if Z.eqb user_id 999 then s
  else if sqlite_integer user_id && sqlite_integer_or_null result_count then
    mkStore (users s) (sessions s)
      (query_history s ++
         [mkQueryLogEntry (next_rowid (map q_id (query_history s))) user_id
            natural_query generated_sql (stored_real execution_time)
            result_count status error_message now])
      (user_preferences s)
  else s.

(** [AuthSystem.update_user_role]; an id that cannot be bound raises, and
    the [except] branch reports it. *)
Definition update_user_role (s : Store) (user_id : Z) (new_role : string)
    : Outcome bool :=
  if sqlite_integer user_id then
    mkOutcome (with_users s (update_users user_id (set_role new_role) (users s)))
              true []
  else mkOutcome s false [MSG_ROLE_OVERFLOW].

(** ** Histories *)

(** The tables right after [_ensure_auth_db] on a new database file. *)
Definition empty_store : Store := mkStore [] [] [] ∅.

(** One call on the [AuthSystem] object, with what it reads from its
    environment. *)
Inductive Op :=
| OpInit (env : CreateEnv)
| OpCreateUser (username email password role : string) (env : CreateEnv)
| OpAuthenticate (username password : string) (env : AuthEnv)
| OpValidateSession (session_token : string) (now : Z)
| OpLogout (session_token : string)
| OpUpdateUserRole (user_id : Z) (new_role : string)
| OpDeactivateUser (user_id : Z)
| OpLogQuery (user_id : Z) (natural_query generated_sql : string)
    (execution_time : option float) (result_count : option Z)
    (status : string) (error_message : option string) (now : Z).

Section Histories.

Variable hash_password : string -> string -> string.

(** The store a call leaves behind. *)
Definition step (s : Store) (op : Op) : Store :=
  match op with
  | OpInit env => default s (create_default_admin hash_password s env)
  | OpCreateUser username email password role env =>
      out_store (create_user hash_password s username email password role env)
  | OpAuthenticate username password env =>
      out_store (authenticate hash_password s username password env)
  | OpValidateSession session_token now =>
      out_store (validate_session s session_token now)
  | OpLogout session_token => logout s session_token
  | OpUpdateUserRole user_id new_role =>
      out_store (update_user_role s user_id new_role)
  | OpDeactivateUser user_id => out_store (deactivate_user s user_id)
  | OpLogQuery user_id natural_query generated_sql execution_time result_count
               status error_message now =>
      log_query s user_id natural_query generated_sql execution_time
                result_count status error_message now
  end.

(** The store after a sequence of calls on a new database file. *)
Definition run (ops : list Op) : Store := fold_left step ops empty_store.

End Histories.

(** A row is lockout-consistent when it carries a lockout expiry only with
    five or more failed attempts on its counter. *)
Definition lockout_consistent (u : User) : Prop :=
  u_failed_login_attempts u < 5 → u_locked_until u = None.

(** ** Sample data for the examples *)

(** A stand-in for the password hasher. *)
Definition sample_hash (password salt : string) : string := password ++ "$" ++ salt.

Definition sample_auth_env (now : Z) (session_token : string) : AuthEnv :=
  mkAuthEnv now now now session_token.

(** Registration of [alice], as in the example scenario of the specification. *)
Definition sample_register : list Op :=
  [OpCreateUser "alice" "alice@x.com" "Secret1!" UserRole.VIEWER
     (mkCreateEnv "5a17" 0)].

(** Five logins of [alice] with a wrong password, at times 1 to 5. *)
Definition sample_failures : list Op :=
  [OpAuthenticate "alice" "wrong" (sample_auth_env 1 "t1");
   OpAuthenticate "alice" "wrong" (sample_auth_env 2 "t2");
   OpAuthenticate "alice" "wrong" (sample_auth_env 3 "t3");
   OpAuthenticate "alice" "wrong" (sample_auth_env 4 "t4");
   OpAuthenticate "alice" "wrong" (sample_auth_env 5 "t5")].

(** The row of [alice] after [sample_register]. *)
Definition sample_alice : User :=
  mkUser 1 "alice" "alice@x.com" (sample_hash "Secret1!" "5a17") "5a17"
         UserRole.VIEWER true 0 None 0 None.

(** The stores of the examples. *)
Definition sample_store_registered : Store := run sample_hash sample_register.

Definition sample_store_locked : Store :=
  run sample_hash (sample_register ++ sample_failures).

Definition sample_store_deactivated : Store :=
  run sample_hash (sample_register ++ [OpDeactivateUser 1]).

Definition sample_store_deactivated_failures : Store :=
  run sample_hash (sample_register ++ [OpDeactivateUser 1] ++ sample_failures).

Definition sample_store_locked_deactivated : Store :=
  run sample_hash (sample_register ++ sample_failures ++ [OpDeactivateUser 1]).

Definition sample_store_logged_in : Store :=
  run sample_hash
      (sample_register ++ [OpAuthenticate "alice" "Secret1!" (sample_auth_env 10 "tok")]).


(** ** Listings *)

(** The dict that [get_all_users] builds from a row. *)
Record UserSummary := mkUserSummary {
  us_id : Z;
  us_username : string;
  us_email : string;
  us_role : string;
  us_is_active : bool;
  us_created_at : Z;
  us_last_login : option Z
}.

Definition user_summary (u : User) : UserSummary :=
  mkUserSummary (u_id u) (u_username u) (u_email u) (u_role u) (u_is_active u)
                (u_created_at u) (u_last_login u).

(** The dict that [get_user_query_history] builds from a row. *)
Record HistoryEntry := mkHistoryEntry {
  h_natural_query : string;
  h_generated_sql : string;
  h_execution_time : option float;
  h_result_count : option Z;
  h_status : string;
  h_error_message : option string;
  h_created_at : Z
}.

Definition history_entry (q : QueryLogEntry) : HistoryEntry :=
  mkHistoryEntry (q_natural_query q) (q_generated_sql q) (q_execution_time q)
                 (q_result_count q) (q_status q) (q_error_message q)
                 (q_created_at q).

(** [LIMIT ?]: SQLite takes a negative bound for no bound. *)
Definition sql_limit {A : Type} (limit : Z) (l : list A) : list A :=
  if Z.ltb limit 0 then l else take (Z.to_nat limit) l.

(** [WHERE user_id = ?] on [query_history]. *)
Definition history_of (user_id : Z) (qs : list QueryLogEntry) : list QueryLogEntry :=
  List.filter (fun q => Z.eqb (q_user_id q) user_id) qs.

Section Listings.

(** [ORDER BY created_at DESC].  SQL leaves the order of rows with equal
    keys open, so the two orderings are arguments; the properties below
    assume of them what SQL guarantees. *)
Variable order_users : list User -> list User.
Variable order_history : list QueryLogEntry -> list QueryLogEntry.

(** [AuthSystem.get_all_users]. *)
Definition get_all_users (s : Store) : list UserSummary :=
  map user_summary (order_users (users s)).

(** [AuthSystem.get_user_query_history].  The method has no [try]: [None]
    is the [OverflowError] that leaves it when [user_id] or [limit] cannot
    be bound. *)
Definition get_user_query_history (s : Store) (user_id : Z) (limit : Z)
    : option (list HistoryEntry) :=
  if sqlite_integer user_id && sqlite_integer limit then
    Some (map history_entry
            (sql_limit limit
               (order_history (history_of user_id (query_history s)))))
  else None.

End Listings.

(** An ordering that SQL allows: insertion sort, latest first, rows with
    equal keys in rowid order. *)
Fixpoint insert_desc {A : Type} (key : A -> Z) (x : A) (l : list A) : list A :=
  match l with
  | [] => [x]
  | y :: l' => if Z.ltb (key y) (key x) then x :: l else y :: insert_desc key x l'
  end.

Definition sort_desc {A : Type} (key : A -> Z) (l : list A) : list A :=
  foldr (insert_desc key) [] l.

(** ** The Streamlit session *)

(** [st.session_state.user_info] holds the dict of [authenticate] after a
    login and the dict of [validate_session] after [require_login]. *)
Inductive UserInfo :=
| LoginDict (info : LoginInfo)
| SessionDict (info : SessionInfo).

(** [user_info.get("permissions", [])]. *)
Definition info_permissions (ui : UserInfo) : list string :=
  match ui with
  | LoginDict info => li_permissions info
  | SessionDict info => si_permissions info
  end.

(** The keys of [st.session_state] that the authentication code uses.  A key
    that is absent reads like one set to [None] (to [False] for
    [is_demo_mode], read with [get('is_demo_mode', False)]):
    [init_auth_session] runs before every read and sets absent keys to
    [None]. *)
Record SessionState := mkSessionState {
  ss_auth_system : bool;             (* ['auth_system' in st.session_state] *)
  ss_user_info : option UserInfo;
  ss_session_token : option string;
  ss_is_demo_mode : bool
}.

(** Truth value of a string or [None] in a Python condition. *)
Definition nonempty (x : string) : bool := negb (String.eqb x EmptyString).

Definition truthy (x : option string) : bool :=
  match x with
  | Some x => nonempty x
  | None => false
  end.

(** [get_current_user]. *)
Definition get_current_user (st : SessionState) : option UserInfo := ss_user_info st.

(** [require_permission]. *)
Definition require_permission (st : SessionState) (permission : string) : bool :=
  match ss_user_info st with
  | None => false
  | Some ui => has_permission (info_permissions ui) permission
  end.

(** What Streamlit shows. *)
Inductive Notice :=
| NoticeError (msg : string)
| NoticeWarning (msg : string)
| NoticeSuccess (msg : string).

(** [len(password)]: a string is held as its UTF-8 encoding, and its
    characters are the bytes that do not continue a multi-byte sequence. *)
Fixpoint py_len (x : string) : Z :=
  match x with
  | EmptyString => 0
  | String c x' =>
      (if Z.eqb (Z.land (Z.of_N (Ascii.N_of_ascii c)) 192) 128 then 0 else 1)
      + py_len x'
  end.

Definition MSG_INVALID_CREDENTIALS : string := "❌ Invalid credentials".
Definition MSG_WELCOME_BACK (username : string) : string :=
  "✅ Welcome back, " ++ username ++ "!".
Definition MSG_ENTER_BOTH : string := "⚠️ Please enter both username and password".
Definition MSG_PASSWORDS_DIFFER : string := "❌ Passwords do not match.".
Definition MSG_PASSWORD_SHORT : string :=
  "❌ Password must be at least 6 characters long.".
Definition MSG_ACCOUNT_CREATED : string :=
  "✅ Account created successfully! Please login.".
Definition MSG_ACCOUNT_EXISTS : string := "❌ Username or email already exists.".
Definition MSG_FILL_ALL : string := "⚠️ Please fill in all fields.".

Section Session.

Variable hash_password : string -> string -> string.

(** [init_auth_session]: [AuthSystem()] is built when the key is absent, and
    its constructor runs [_create_default_admin]; [None] is the exception
    leaving the constructor. *)
Definition init_auth_session (s : Store) (st : SessionState) (env : CreateEnv)
    : option (Store * SessionState) :=
  if ss_auth_system st then Some (s, st)
  else
    match create_default_admin hash_password s env with
    | Some s' =>
        Some (s', mkSessionState true (ss_user_info st) (ss_session_token st)
                    (ss_is_demo_mode st))
    | None => None
    end.

(** [require_login]; [now] is the clock read by [validate_session]. *)
Definition require_login (s : Store) (st : SessionState) (env : CreateEnv) (now : Z)
    : option (Store * SessionState * bool) :=
  match init_auth_session s st env with
  | None => None
  | Some (s1, st1) =>
      if ss_is_demo_mode st1 && bool_decide (is_Some (ss_user_info st1)) then
        Some (s1, st1, true)
      else
        match ss_session_token st1 with
        | Some session_token =>
            if nonempty session_token then
              let o := validate_session s1 session_token now in
              match out_value o with
              | Some user_info =>
                  Some (out_store o,
                        mkSessionState (ss_auth_system st1)
                          (Some (SessionDict user_info))
                          (ss_session_token st1) (ss_is_demo_mode st1),
                        true)
              | None =>
                  Some (out_store o,
                        mkSessionState (ss_auth_system st1) None None
                          (ss_is_demo_mode st1),
                        false)
              end
            else Some (s1, st1, false)
        | None => Some (s1, st1, false)
        end
  end.

(** The body of [if login_clicked ...] in [show_simple_login]: what pressing
    the sign-in button does. *)
Definition submit_login (s : Store) (st : SessionState) (username password : string)
    (env : AuthEnv) : Store * SessionState * list Notice :=
  if nonempty username && nonempty password then
    let o := authenticate hash_password s username password env in
    match out_value o with
    | Some user_info =>
        (out_store o,
         mkSessionState (ss_auth_system st) (Some (LoginDict user_info))
           (Some (li_session_token user_info)) (ss_is_demo_mode st),
         (map NoticeError (out_errors o)
          ++ [NoticeSuccess (MSG_WELCOME_BACK (li_username user_info))])%list)
    | None =>
        (out_store o, st,
         (map NoticeError (out_errors o)
          ++ [NoticeError MSG_INVALID_CREDENTIALS])%list)
    end
  else (s, st, [NoticeWarning MSG_ENTER_BOTH]).

(** The role given to a new account by [show_registration_form];
    [selected] is the value of the role select box. *)
Definition registration_role (st : SessionState) (selected : string) : string :=
  if bool_decide (is_Some (get_current_user st))
     && require_permission st Permission.MANAGE_USERS
  then selected else UserRole.GUEST.

(** The body of [if register_button:] in [show_registration_form]. *)
Definition submit_registration (s : Store) (st : SessionState)
    (username email password confirm_password selected : string) (env : CreateEnv)
    : Store * list Notice :=
  let role := registration_role st selected in
  if nonempty username && nonempty email && nonempty password
     && nonempty confirm_password then
    if negb (String.eqb password confirm_password) then
      (s, [NoticeError MSG_PASSWORDS_DIFFER])
    else if Z.ltb (py_len password) 6 then
      (s, [NoticeError MSG_PASSWORD_SHORT])
    else
      let o := create_user hash_password s username email password role env in
      (out_store o,
       (map NoticeError (out_errors o)
        ++ [if out_value o then NoticeSuccess MSG_ACCOUNT_CREATED
            else NoticeError MSG_ACCOUNT_EXISTS])%list)
  else (s, [NoticeWarning MSG_FILL_ALL]).

End Session.

(** ** What stays of a row *)

(** The columns of a row of [users] that identify the account and hold its
    credentials. *)
Definition account_key (u : User) : Z * string * string * string * string :=
  (u_id u, u_username u, u_email u, u_password_hash u, u_salt u).

(** The columns of a row of [sessions] other than [is_active]. *)
Definition session_key (se : Session) : Z * Z * string * Z * Z * string * string :=
  (s_id se, s_user_id se, s_session_token se, s_created_at se, s_expires_at se,
   s_ip_address se, s_user_agent se).

(** What the constraints of the schema and the checks of the code keep true
    of the tables. *)
Definition store_consistent (s : Store) : Prop :=
  NoDup (map u_id (users s))
  ∧ NoDup (map u_username (users s))
  ∧ NoDup (map u_email (users s))
  ∧ NoDup (map s_id (sessions s))
  ∧ NoDup (map s_session_token (sessions s))
  ∧ (∀ se, se ∈ sessions s → s_user_id se ∈ map u_id (users s))
  ∧ (∀ k, is_Some (user_preferences s !! k) ↔ k ∈ map u_id (users s)).

(** How the store [s'] left by a call relates to the store [s] it found:
    rows stay in place; a row of [users] keeps its id, names and
    credentials and is not switched back to active; a row of [sessions] is left as it is or switched off; a
    new account has an id that was not in use; a new session has a token that
    was not in use and belongs to an account that was active. *)
Definition store_grows (s s' : Store) : Prop :=
  (∃ g new, users s' = (map g (users s) ++ new)%list
     ∧ (∀ u, account_key (g u) = account_key u
             ∧ (u_is_active (g u) = true → u_is_active u = true))
     ∧ (∀ n, n ∈ new → u_id n ∉ map u_id (users s)))
  ∧ (∃ f new, sessions s' = (map f (sessions s) ++ new)%list
     ∧ (∀ se, f se = se ∨ f se = session_off se)
     ∧ (∀ n, n ∈ new →
          (s_session_token n ∉ map s_session_token (sessions s))
          ∧ ∃ u, u ∈ users s ∧ u_id u = s_user_id n ∧ u_is_active u = true)).

(** Sample session states and orderings for the examples. *)
Definition sample_order_users : list User -> list User := sort_desc u_created_at.
Definition sample_order_history : list QueryLogEntry -> list QueryLogEntry :=
  sort_desc q_created_at.

(** What [authenticate] and [validate_session] return for [alice] in
    [sample_store_logged_in]. *)
Definition sample_alice_login : LoginInfo :=
  mkLoginInfo 1 "alice" "alice@x.com" UserRole.VIEWER "tok"
              (role_permissions UserRole.VIEWER).

Definition sample_alice_session : SessionInfo :=
  mkSessionInfo 1 "alice" "alice@x.com" UserRole.VIEWER
                (role_permissions UserRole.VIEWER).

(** The session state of [alice] after she signed in, a session state in
    demo mode, and that of a visitor. *)
Definition sample_state_signed_in : SessionState :=
  mkSessionState true (Some (LoginDict sample_alice_login)) (Some "tok") false.

Definition sample_state_demo : SessionState :=
  mkSessionState true (Some (LoginDict sample_alice_login)) (Some "tok") true.

Definition sample_state_visitor : SessionState :=
  mkSessionState true None None false.

(** [alice] registered, then two queries logged for her and, between them,
    one for account id 999. *)
Definition sample_store_queries : Store :=
  run sample_hash
      (sample_register ++
       [OpLogQuery 1 "first" "SELECT 1;" None (Some 1) "success" None 100;
        OpLogQuery 999 "demo" "SELECT 2;" None (Some 1) "success" None 200;
        OpLogQuery 1 "second" "SELECT 3;" None None "error" (Some "no such table")
                   300]).

(** The row that the registration form adds for [bob]. *)
Definition sample_bob : User :=
  mkUser 2 "bob" "bob@x.com" (sample_hash "pw123456" "77aa") "77aa"
         UserRole.GUEST true 20 None 0 None.

(** The built-in administrator, then [anna], whose e-mail address is
    ["shared"], then an account whose username is ["shared"]. *)
Definition sample_store_shared : Store :=
  run sample_hash
      [OpInit (mkCreateEnv "00aa" 0);
       OpCreateUser "anna" "shared" "pwA" UserRole.GUEST (mkCreateEnv "11bb" 1);
       OpCreateUser "shared" "b@x.com" "pwB" UserRole.GUEST (mkCreateEnv "22cc" 2)].

(** * Properties *)

(** ** The permission table *)

Lemma role_permissions_guest :
  role_permissions UserRole.GUEST = [Permission.READ_DATA].
Proof. reflexivity. Qed.

Lemma role_permissions_admin :
  role_permissions UserRole.ADMIN =
    [Permission.READ_DATA; Permission.WRITE_DATA; Permission.DELETE_DATA;
     Permission.MANAGE_USERS; Permission.VIEW_ANALYTICS; Permission.EXPORT_DATA;
     Permission.CREATE_DASHBOARDS; Permission.MANAGE_SCHEMAS;
     Permission.VIEW_QUERY_HISTORY; Permission.SHARE_QUERIES].
Proof. reflexivity. Qed.

(** C9. The permissions of [guest] form a strict subset of those of
    [admin]: each of them is an admin permission, and [manage_users] is an
    admin permission that guest lacks. *)
Theorem guest_permissions_strict_subset :
  role_permissions UserRole.GUEST ⊂ role_permissions UserRole.ADMIN
  ∧ Permission.MANAGE_USERS ∈ role_permissions UserRole.ADMIN
  ∧ Permission.MANAGE_USERS ∉ role_permissions UserRole.GUEST.
Proof.
  rewrite role_permissions_guest, role_permissions_admin.
  assert (Hin : Permission.MANAGE_USERS ∈
                  [Permission.READ_DATA; Permission.WRITE_DATA; Permission.DELETE_DATA;
                   Permission.MANAGE_USERS; Permission.VIEW_ANALYTICS;
                   Permission.EXPORT_DATA; Permission.CREATE_DASHBOARDS;
                   Permission.MANAGE_SCHEMAS; Permission.VIEW_QUERY_HISTORY;
                   Permission.SHARE_QUERIES]).
  { do 3 apply list_elem_of_further. apply list_elem_of_here. }
  assert (Hout : Permission.MANAGE_USERS ∉ [Permission.READ_DATA]).
  { intros H. apply list_elem_of_singleton in H. discriminate H. }
  split; [split|split]; try assumption.
  - intros p Hp. apply list_elem_of_singleton in Hp. subst p.
    apply list_elem_of_here.
  - intros Hsub. apply Hout, Hsub, Hin.
Qed.

(** ** Rows and queries *)

Lemma find_map_stable {A : Type} (p : A → bool) (f : A → A) (l : list A) :
  (∀ x, p (f x) = p x) →
  List.find p (map f l) = f <$> List.find p l.
Proof.
  intros Hp. induction l as [|a l IH]; [reflexivity|].
  cbn [map List.find]. rewrite Hp. destruct (p a); [reflexivity|exact IH].
Qed.

Lemma find_none_iff {A : Type} (p : A → bool) (l : list A) :
  List.find p l = None ↔ ∀ x, x ∈ l → p x = false.
Proof.
  induction l as [|a l IH]; cbn [List.find].
  - split; [|reflexivity]. intros _ x Hx. inversion Hx.
  - destruct (p a) eqn:Ha.
    + split; [discriminate|]. intros H.
      rewrite (H a (list_elem_of_here a l)) in Ha. discriminate.
    + rewrite IH. split.
      * intros H x Hx. apply elem_of_cons in Hx as [->|Hx]; auto.
      * intros H x Hx. apply H. by apply list_elem_of_further.
Qed.

Lemma find_some_elem {A : Type} (p : A → bool) (l : list A) (x : A) :
  List.find p l = Some x → x ∈ l ∧ p x = true.
Proof.
  intros H. apply find_some in H as [Hin Hp].
  split; [by apply list_elem_of_In|exact Hp].
Qed.

Lemma existsb_elem {A : Type} (p : A → bool) (l : list A) (x : A) :
  x ∈ l → p x = true → existsb p l = true.
Proof.
  intros Hin Hp. apply existsb_exists. exists x.
  split; [by apply list_elem_of_In|exact Hp].
Qed.

(** An update of [users] that keeps names and e-mail addresses does not
    change which row a login name selects. *)
Lemma select_user_update_users (username : string) (user_id : Z)
    (f : User → User) (us : list User) :
  (∀ u, u_username (f u) = u_username u) →
  (∀ u, u_email (f u) = u_email u) →
  select_user username (update_users user_id f us)
  = (λ u, if Z.eqb (u_id u) user_id then f u else u) <$> select_user username us.
Proof.
  intros Hn He. unfold select_user, update_users.
  rewrite !find_map_stable.
  - destruct (List.find _ us); [reflexivity|]. by destruct (List.find _ us).
  - intros u. destruct (Z.eqb (u_id u) user_id); [|reflexivity]. by rewrite He.
  - intros u. destruct (Z.eqb (u_id u) user_id); [|reflexivity]. by rewrite Hn.
Qed.

Lemma select_user_update_own (username : string) (f : User → User)
    (us : list User) (u : User) :
  (∀ v, u_username (f v) = u_username v) →
  (∀ v, u_email (f v) = u_email v) →
  select_user username us = Some u →
  select_user username (update_users (u_id u) f us) = Some (f u).
Proof.
  intros Hn He Hsel. rewrite select_user_update_users by assumption.
  rewrite Hsel. cbn. by rewrite Z.eqb_refl.
Qed.

Lemma select_user_none (username : string) (us : list User) :
  (∀ u, u ∈ us → u_username u ≠ username ∧ u_email u ≠ username) →
  select_user username us = None.
Proof.
  intros H. unfold select_user.
  assert (Hn : List.find (λ u, String.eqb (u_username u) username) us = None).
  { apply find_none_iff. intros u Hu. apply String.eqb_neq. by apply H. }
  assert (He : List.find (λ u, String.eqb (u_email u) username) us = None).
  { apply find_none_iff. intros u Hu. apply String.eqb_neq. by apply H. }
  by rewrite Hn, He.
Qed.

Lemma select_user_elem (username : string) (us : list User) (u : User) :
  select_user username us = Some u →
  u ∈ us ∧ (u_username u = username ∨ u_email u = username).
Proof.
  unfold select_user.
  destruct (List.find (λ u, String.eqb (u_username u) username) us) as [v|] eqn:E.
  - intros [= <-]. apply find_some_elem in E as [Hin Hp].
    apply String.eqb_eq in Hp. by split; [|left].
  - intros H. apply find_some_elem in H as [Hin Hp].
    apply String.eqb_eq in Hp. by split; [|right].
Qed.

(** When an older account has for e-mail address what a newer account has
    for username, that login name selects the newer account. *)
Lemma select_user_prefers_username (a b : User) (login : string) :
  u_email a = login → u_username a ≠ login → u_username b = login →
  select_user login [a; b] = Some b.
Proof.
  intros He Hn Hb. unfold select_user. cbn [List.find].
  apply String.eqb_neq in Hn. rewrite Hn.
  apply String.eqb_eq in Hb. by rewrite Hb.
Qed.

Lemma sessions_off_by_token_twice (session_token : string) (ss : list Session) :
  sessions_off_by_token session_token (sessions_off_by_token session_token ss)
  = sessions_off_by_token session_token ss.
Proof.
  unfold sessions_off_by_token. rewrite map_map. apply map_ext. intros se.
  destruct (String.eqb (s_session_token se) session_token) eqn:E.
  - cbn. rewrite E. reflexivity.
  - rewrite E. reflexivity.
Qed.

Lemma sessions_off_by_token_inactive (session_token : string) (ss : list Session) :
  Forall (λ se, s_session_token se = session_token → s_is_active se = false)
         (sessions_off_by_token session_token ss).
Proof.
  unfold sessions_off_by_token. apply Forall_map, Forall_forall.
  intros se _. destruct (String.eqb (s_session_token se) session_token) eqn:E.
  - reflexivity.
  - intros Heq. apply String.eqb_neq in E. contradiction.
Qed.

(** The join of [validate_session] only yields sessions of the store that
    carry the token and are flagged active. *)
Lemma select_session_elem (session_token : string) (s : Store)
    (se : Session) (u : User) :
  (se, u) ∈ select_session session_token s →
  se ∈ sessions s ∧ s_session_token se = session_token ∧ s_is_active se = true
  ∧ u ∈ users s ∧ u_id u = s_user_id se.
Proof.
  unfold select_session. rewrite list_elem_of_In, in_flat_map.
  intros (se' & Hse' & Hpair).
  apply in_map_iff in Hpair as (u' & Heq & Hu'). inversion Heq; subst se' u'.
  apply filter_In in Hse' as [Hin Hc]. apply filter_In in Hu' as [Hinu Hid].
  apply andb_true_iff in Hc as [Ht Ha].
  apply String.eqb_eq in Ht. apply Z.eqb_eq in Hid.
  rewrite <- !list_elem_of_In in *. done.
Qed.

Lemma select_session_none (session_token : string) (s : Store) :
  (∀ se, se ∈ sessions s → s_session_token se = session_token →
         s_is_active se = false) →
  select_session session_token s = [].
Proof.
  intros H. destruct (select_session session_token s) as [|[se u] l] eqn:E;
    [reflexivity|].
  assert (Hin : (se, u) ∈ select_session session_token s)
    by (rewrite E; apply list_elem_of_here).
  apply select_session_elem in Hin as (Hse & Ht & Ha & _).
  rewrite (H se Hse Ht) in Ha. discriminate.
Qed.

(** ** Audit log *)

(** Any other account id that fits a SQLite INTEGER gets its query
    recorded. *)
Lemma log_query_appends (s : Store) (user_id : Z) (natural_query generated_sql : string)
    (execution_time : option float) (result_count : option Z)
    (status : string) (error_message : option string) (now : Z) :
  user_id ≠ 999 →
  sqlite_integer user_id = true →
  sqlite_integer_or_null result_count = true →
  length (query_history (log_query s user_id natural_query generated_sql
                           execution_time result_count status error_message now))
  = S (length (query_history s)).
Proof.
  intros Hne Hu Hr. unfold log_query. apply Z.eqb_neq in Hne.
  rewrite Hne, Hu, Hr. cbn. rewrite length_app. cbn. lia.
Qed.

(** C10. A call of [log_query] for account id 999 returns without writing:
    the whole store, and so the query-history table, is as before. *)
Theorem log_query_demo_user_not_recorded (s : Store)
    (natural_query generated_sql : string) (execution_time : option float)
    (result_count : option Z) (status : string) (error_message : option string)
    (now : Z) :
  log_query s 999 natural_query generated_sql execution_time result_count
            status error_message now = s
  ∧ query_history (log_query s 999 natural_query generated_sql execution_time
                     result_count status error_message now) = query_history s.
Proof. split; reflexivity. Qed.

(** ** Sessions *)

Lemma validate_session_no_row (s : Store) (session_token : string) (now : Z) :
  select_session session_token s = [] →
  validate_session s session_token now = mkOutcome s None [].
Proof.
  intros H. unfold validate_session. rewrite H.
  destruct (String.eqb session_token EmptyString); reflexivity.
Qed.

Lemma session_eta (se : Session) :
  mkSession (s_id se) (s_user_id se) (s_session_token se) (s_created_at se)
            (s_expires_at se) (s_is_active se) (s_ip_address se) (s_user_agent se)
  = se.
Proof. by destruct se. Qed.

(** What [UPDATE sessions SET is_active = FALSE WHERE session_token = ?]
    does to the row at each position. *)
Lemma sessions_off_by_token_lookup (session_token : string) (ss : list Session)
    (i : nat) (se : Session) :
  ss !! i = Some se →
  sessions_off_by_token session_token ss !! i
  = Some (mkSession (s_id se) (s_user_id se) (s_session_token se)
            (s_created_at se) (s_expires_at se)
            (if String.eqb (s_session_token se) session_token
             then false else s_is_active se)
            (s_ip_address se) (s_user_agent se)).
Proof.
  intros Hi. unfold sessions_off_by_token.
  change (map ?g ss) with (g <$> ss). rewrite list_lookup_fmap, Hi. cbn.
  destruct (String.eqb (s_session_token se) session_token); [reflexivity|].
  by rewrite session_eta.
Qed.

Lemma sessions_off_by_token_length (session_token : string) (ss : list Session) :
  length (sessions_off_by_token session_token ss) = length ss.
Proof. unfold sessions_off_by_token. apply length_map. Qed.

(** C8. Logging out twice leaves the store that logging out once leaves;
    [logout] is a total function, so neither call raises.  A call keeps
    every row of [sessions] where it is and changes nothing but the active
    flag of the rows that carry the token, which it sets to false; the other
    tables are as before.  After one call and after two, every session with
    the token is flagged inactive and the token no longer validates. *)
Theorem logout_idempotent (s : Store) (session_token : string) (now : Z) :
  logout (logout s session_token) session_token = logout s session_token
  ∧ users (logout s session_token) = users s
  ∧ query_history (logout s session_token) = query_history s
  ∧ user_preferences (logout s session_token) = user_preferences s
  ∧ length (sessions (logout s session_token)) = length (sessions s)
  ∧ (∀ (i : nat) (se : Session),
       sessions s !! i = Some se →
       sessions (logout s session_token) !! i
       = Some (mkSession (s_id se) (s_user_id se) (s_session_token se)
                 (s_created_at se) (s_expires_at se)
                 (if String.eqb (s_session_token se) session_token
                  then false else s_is_active se)
                 (s_ip_address se) (s_user_agent se)))
  ∧ Forall (λ se, s_session_token se = session_token → s_is_active se = false)
           (sessions (logout s session_token))
  ∧ Forall (λ se, s_session_token se = session_token → s_is_active se = false)
           (sessions (logout (logout s session_token) session_token))
  ∧ out_value (validate_session (logout s session_token) session_token now) = None
  ∧ out_value (validate_session (logout (logout s session_token) session_token)
                 session_token now) = None.
Proof.
  assert (Hidem : logout (logout s session_token) session_token
                  = logout s session_token).
  { unfold logout, with_sessions.
    cbn [users sessions query_history user_preferences].
    by rewrite sessions_off_by_token_twice. }
  assert (Hoff : Forall (λ se, s_session_token se = session_token →
                               s_is_active se = false)
                        (sessions (logout s session_token))).
  { apply sessions_off_by_token_inactive. }
  assert (Hval : out_value (validate_session (logout s session_token)
                              session_token now) = None).
  { rewrite validate_session_no_row; [reflexivity|].
    apply select_session_none. intros se Hse.
    rewrite Forall_forall in Hoff. by apply Hoff. }
  rewrite Hidem.
  split; [reflexivity|]. split; [reflexivity|]. split; [reflexivity|].
  split; [reflexivity|]. split; [apply sessions_off_by_token_length|].
  split; [intros i se Hi; by apply sessions_off_by_token_lookup|].
  done.
Qed.

Lemma select_session_found (session_token : string) (s : Store) (se : Session) :
  se ∈ sessions s → s_session_token se = session_token → s_is_active se = true →
  s_user_id se ∈ map u_id (users s) →
  select_session session_token s ≠ [].
Proof.
  intros Hse Ht Ha Hown Hnil.
  apply list_elem_of_fmap in Hown as (u & Hid & Hu).
  assert (Hin : In (se, u) (select_session session_token s)).
  { unfold select_session. apply in_flat_map. exists se. split.
    - apply filter_In. split; [by apply list_elem_of_In|].
      apply andb_true_iff. split; [by apply String.eqb_eq|exact Ha].
    - apply in_map. apply filter_In. split; [by apply list_elem_of_In|].
      apply Z.eqb_eq. congruence. }
  rewrite Hnil in Hin. destruct Hin.
Qed.

(** C4. [validate_session] returns [None] for a token no session carries,
    for a token whose sessions are all flagged inactive, and for a token
    whose sessions are all past their expiry.  When a session with that
    token, flagged active and owned by an account of the store, is past its
    expiry, the call returns [None] from a store in which every row of
    [sessions] is where it was, the rows with that token have their active
    flag set to false and nothing else changed, so that the expired session
    is still in the table, now flagged inactive; the other tables are as
    before. *)
Theorem validate_session_fails_closed (s : Store) (session_token : string) (now : Z) :
  ((∀ se, se ∈ sessions s → s_session_token se ≠ session_token) →
   validate_session s session_token now = mkOutcome s None [])
  ∧ ((∀ se, se ∈ sessions s → s_session_token se = session_token →
            s_is_active se = false) →
     validate_session s session_token now = mkOutcome s None [])
  ∧ ((∀ se, se ∈ sessions s → s_session_token se = session_token →
            s_expires_at se < now) →
     out_value (validate_session s session_token now) = None)
  ∧ (∀ se, session_token ≠ EmptyString →
       se ∈ sessions s → s_session_token se = session_token →
       s_is_active se = true →
       s_user_id se ∈ map u_id (users s) →
       (∀ x, x ∈ sessions s → s_session_token x = session_token →
             s_expires_at x < now) →
       out_value (validate_session s session_token now) = None
       ∧ out_errors (validate_session s session_token now) = []
       ∧ users (out_store (validate_session s session_token now)) = users s
       ∧ query_history (out_store (validate_session s session_token now))
         = query_history s
       ∧ user_preferences (out_store (validate_session s session_token now))
         = user_preferences s
       ∧ length (sessions (out_store (validate_session s session_token now)))
         = length (sessions s)
       ∧ (∀ (i : nat) (x : Session),
            sessions s !! i = Some x →
            sessions (out_store (validate_session s session_token now)) !! i
            = Some (mkSession (s_id x) (s_user_id x) (s_session_token x)
                      (s_created_at x) (s_expires_at x)
                      (if String.eqb (s_session_token x) session_token
                       then false else s_is_active x)
                      (s_ip_address x) (s_user_agent x)))
       ∧ mkSession (s_id se) (s_user_id se) (s_session_token se)
                   (s_created_at se) (s_expires_at se) false
                   (s_ip_address se) (s_user_agent se)
         ∈ sessions (out_store (validate_session s session_token now))).
Proof.
  split; [|split; [|split]].
  - intros H. apply validate_session_no_row, select_session_none.
    intros se Hse Ht. destruct (H se Hse Ht).
  - intros H. by apply validate_session_no_row, select_session_none.
  - intros H. unfold validate_session.
    destruct (String.eqb session_token EmptyString); [reflexivity|].
    destruct (select_session session_token s) as [|[se u] l] eqn:E; [reflexivity|].
    assert (Hin : (se, u) ∈ select_session session_token s)
      by (rewrite E; apply list_elem_of_here).
    apply select_session_elem in Hin as (Hse & Ht & _).
    cbn [head]. pose proof (H se Hse Ht) as Hexp.
    apply Z.ltb_lt in Hexp as ->. reflexivity.
  - intros se Hne Hse Ht Ha Hown Hexp.
    assert (Hout : validate_session s session_token now
                   = mkOutcome (with_sessions s
                                  (sessions_off_by_token session_token (sessions s)))
                               None []).
    { unfold validate_session. apply String.eqb_neq in Hne. rewrite Hne.
      pose proof (select_session_found session_token s se Hse Ht Ha Hown) as Hrows.
      destruct (select_session session_token s) as [|[se' u'] l] eqn:E; [done|].
      assert (Hin : (se', u') ∈ select_session session_token s)
        by (rewrite E; apply list_elem_of_here).
      apply select_session_elem in Hin as (Hse' & Ht' & _).
      cbn [head]. pose proof (Hexp se' Hse' Ht') as Hlt.
      apply Z.ltb_lt in Hlt as ->. reflexivity. }
    rewrite Hout. cbn [out_value out_errors out_store with_sessions users sessions
                       query_history user_preferences].
    split; [reflexivity|]. split; [reflexivity|]. split; [reflexivity|].
    split; [reflexivity|]. split; [reflexivity|].
    split; [apply sessions_off_by_token_length|].
    split; [intros i x Hi; by apply sessions_off_by_token_lookup|].
    apply list_elem_of_lookup_1 in Hse as [i Hi].
    apply (list_elem_of_lookup_2 _ i).
    rewrite (sessions_off_by_token_lookup _ _ _ _ Hi).
    apply String.eqb_eq in Ht. by rewrite Ht.
Qed.

(** ** Accounts *)

Section AuthSystemProperties.

Variable hash_password : string → string → string.

Lemma is_locked_true (now t : Z) (u : User) :
  u_locked_until u = Some t → now < t → is_locked now u = true.
Proof. intros Hl Hlt. unfold is_locked. rewrite Hl. by apply Z.ltb_lt. Qed.

(** The four ways [authenticate] ends without a session, and the one with. *)
Lemma authenticate_unknown (s : Store) (username password : string) (env : AuthEnv) :
  select_user username (users s) = None →
  authenticate hash_password s username password env = mkOutcome s None [].
Proof. intros H. unfold authenticate. by rewrite H. Qed.

Lemma authenticate_locked (s : Store) (username password : string) (env : AuthEnv)
    (u : User) :
  select_user username (users s) = Some u →
  is_locked (now_lock_check env) u = true →
  authenticate hash_password s username password env = mkOutcome s None [MSG_LOCKED].
Proof. intros H Hl. unfold authenticate. by rewrite H, Hl. Qed.

Lemma authenticate_inactive (s : Store) (username password : string) (env : AuthEnv)
    (u : User) :
  select_user username (users s) = Some u →
  is_locked (now_lock_check env) u = false →
  u_is_active u = false →
  authenticate hash_password s username password env
  = mkOutcome s None [MSG_DEACTIVATED].
Proof. intros H Hl Ha. unfold authenticate. by rewrite H, Hl, Ha. Qed.

Lemma authenticate_wrong_password (s : Store) (username password : string)
    (env : AuthEnv) (u : User) :
  select_user username (users s) = Some u →
  is_locked (now_lock_check env) u = false →
  u_is_active u = true →
  hash_password password (u_salt u) ≠ u_password_hash u →
  authenticate hash_password s username password env
  = mkOutcome
      (with_users s
         (update_users (u_id u)
            (set_failure (u_failed_login_attempts u + 1)
               (if Z.leb 5 (u_failed_login_attempts u + 1)
                then Some (now_action env + timedelta_minutes 30) else None))
            (users s)))
      None [].
Proof.
  intros H Hl Ha Hw. unfold authenticate. rewrite H, Hl, Ha.
  apply String.eqb_neq in Hw. by rewrite Hw.
Qed.

(** C6. While the lockout expiry of the selected account lies in the
    future, [authenticate] answers with the lockout message whatever the
    password and whatever the hash function, and returns the store it was
    given: counter, expiry and everything else are as before. *)
Theorem locked_account_rejected_unchanged (s : Store) (username password : string)
    (env : AuthEnv) (u : User) (t : Z) :
  select_user username (users s) = Some u →
  u_locked_until u = Some t →
  now_lock_check env < t →
  authenticate hash_password s username password env = mkOutcome s None [MSG_LOCKED]
  ∧ select_user username
      (users (out_store (authenticate hash_password s username password env)))
    = Some u.
Proof.
  intros Hsel Hl Hlt.
  assert (Hout : authenticate hash_password s username password env
                 = mkOutcome s None [MSG_LOCKED]).
  { eapply authenticate_locked; [exact Hsel|]. by eapply is_locked_true. }
  rewrite Hout. split; [reflexivity|exact Hsel].
Qed.

Lemma deactivate_user_done (s : Store) (user_id : Z) :
  out_value (deactivate_user s user_id) = true →
  out_store (deactivate_user s user_id)
  = mkStore (update_users user_id user_off (users s))
            (sessions_off_by_user user_id (sessions s))
            (query_history s) (user_preferences s).
Proof.
  unfold deactivate_user. by destruct (sqlite_integer user_id).
Qed.

Lemma deactivate_user_selected (s : Store) (username : string) (u : User) :
  out_value (deactivate_user s (u_id u)) = true →
  select_user username (users s) = Some u →
  select_user username (users (out_store (deactivate_user s (u_id u))))
  = Some (user_off u).
Proof.
  intros Hok H. rewrite (deactivate_user_done _ _ Hok). cbn [users].
  by apply select_user_update_own.
Qed.

(** C7. An account whose active flag is false and which is not locked at
    the time of the call is answered with the deactivation message for every
    password, and the store is left as it was, so the same holds for every
    later call.  A call of [deactivate_user] that returns [True] puts the
    account in that state. *)
Theorem deactivated_account_rejected (s : Store) (username password : string)
    (env : AuthEnv) (u : User) :
  select_user username (users s) = Some u →
  is_locked (now_lock_check env) u = false →
  (u_is_active u = false →
   authenticate hash_password s username password env
   = mkOutcome s None [MSG_DEACTIVATED])
  ∧ (out_value (deactivate_user s (u_id u)) = true →
     authenticate hash_password (out_store (deactivate_user s (u_id u)))
       username password env
     = mkOutcome (out_store (deactivate_user s (u_id u))) None [MSG_DEACTIVATED]).
Proof.
  intros Hsel Hl. split.
  - intros Ha. by eapply authenticate_inactive.
  - intros Hok. eapply authenticate_inactive.
    + by apply deactivate_user_selected.
    + exact Hl.
    + reflexivity.
Qed.

(** C5. Creating an account whose username or whose e-mail address is that
    of an account of the store returns [False] and the store it was given:
    no row of any table is added or changed. *)
Theorem create_user_duplicate_rejected (s : Store) (a : User)
    (username email password role : string) (env : CreateEnv) :
  a ∈ users s →
  username = u_username a ∨ email = u_email a →
  create_user hash_password s username email password role env
  = mkOutcome s false [].
Proof.
  intros Hin Hdup. unfold create_user.
  rewrite (existsb_elem _ _ a Hin); [reflexivity|].
  unfold matches_user. apply orb_true_iff.
  destruct Hdup as [->| ->]; [left|right]; apply String.eqb_refl.
Qed.

(** C3. For a login name that is neither a username nor an e-mail address
    of the store, [authenticate] returns [None] and shows no message, which
    is the returned value and the message list it yields for an existing,
    active, unlocked account given a wrong password. *)
Theorem unknown_identifier_like_wrong_password
    (s1 : Store) (username1 password1 : string) (env1 : AuthEnv)
    (s2 : Store) (username2 password2 : string) (env2 : AuthEnv) (u : User) :
  (∀ v, v ∈ users s1 → u_username v ≠ username1 ∧ u_email v ≠ username1) →
  select_user username2 (users s2) = Some u →
  u_is_active u = true →
  is_locked (now_lock_check env2) u = false →
  hash_password password2 (u_salt u) ≠ u_password_hash u →
  authenticate hash_password s1 username1 password1 env1 = mkOutcome s1 None []
  ∧ out_value (authenticate hash_password s2 username2 password2 env2)
    = out_value (authenticate hash_password s1 username1 password1 env1)
  ∧ out_errors (authenticate hash_password s2 username2 password2 env2)
    = out_errors (authenticate hash_password s1 username1 password1 env1).
Proof.
  intros Hnone Hsel Ha Hl Hw.
  rewrite (authenticate_unknown s1) by by apply select_user_none.
  rewrite (authenticate_wrong_password s2 _ _ _ u) by assumption.
  done.
Qed.


(** ** Lockout *)

Lemma update_users_Forall (P : User → Prop) (user_id : Z) (f : User → User)
    (us : list User) :
  Forall P us → (∀ u, P u → P (f u)) → Forall P (update_users user_id f us).
Proof.
  intros Hus Hf. unfold update_users. apply Forall_map.
  eapply Forall_impl; [exact Hus|]. intros u Hu. cbn.
  destruct (Z.eqb (u_id u) user_id); auto.
Qed.

Lemma authenticate_lockout_consistent (s : Store) (username password : string)
    (env : AuthEnv) :
  Forall lockout_consistent (users s) →
  Forall lockout_consistent
    (users (out_store (authenticate hash_password s username password env))).
Proof.
  intros Hs. unfold authenticate.
  destruct (select_user username (users s)) as [u|]; [|exact Hs].
  destruct (is_locked (now_lock_check env) u); [exact Hs|].
  destruct (negb (u_is_active u)); [exact Hs|].
  destruct (negb (String.eqb (hash_password password (u_salt u)) (u_password_hash u))).
  - cbn [out_store with_users users]. apply update_users_Forall; [exact Hs|].
    intros v _. unfold lockout_consistent. cbn.
    destruct (Z.leb_spec 5 (u_failed_login_attempts u + 1)); [lia|reflexivity].
  - destruct (existsb _ (sessions s)); [exact Hs|].
    cbn [out_store users]. apply update_users_Forall; [exact Hs|].
    intros v _. unfold lockout_consistent. reflexivity.
Qed.

Lemma step_lockout_consistent (s : Store) (op : Op) :
  Forall lockout_consistent (users s) →
  Forall lockout_consistent (users (step hash_password s op)).
Proof.
  intros Hs. destruct op; cbn [step].
  - unfold create_default_admin.
    destruct (Z.eqb _ 0); [|exact Hs].
    destruct (user_preferences s !! _); [exact Hs|].
    cbn. apply Forall_app. split; [exact Hs|].
    apply Forall_singleton. intros _. reflexivity.
  - unfold create_user.
    destruct (existsb _ (users s)); [exact Hs|].
    destruct (user_preferences s !! _); [exact Hs|].
    cbn. apply Forall_app. split; [exact Hs|].
    apply Forall_singleton. intros _. reflexivity.
  - by apply authenticate_lockout_consistent.
  - unfold validate_session.
    destruct (String.eqb session_token EmptyString); [exact Hs|].
    destruct (head _) as [[se u]|]; [|exact Hs].
    destruct (Z.ltb _ now); [exact Hs|].
    destruct (negb _); exact Hs.
  - exact Hs.
  - unfold update_user_role. destruct (sqlite_integer user_id); [|exact Hs].
    cbn. apply update_users_Forall; [exact Hs|]. intros u Hu. exact Hu.
  - unfold deactivate_user. destruct (sqlite_integer user_id); [|exact Hs].
    cbn. apply update_users_Forall; [exact Hs|]. intros u Hu. exact Hu.
  - unfold log_query. destruct (Z.eqb user_id 999); [exact Hs|].
    destruct (_ && _); exact Hs.
Qed.

(** No sequence of calls leaves a lockout expiry on a row whose counter is
    below five. *)
Lemma run_lockout_consistent (ops : list Op) :
  Forall lockout_consistent (users (run hash_password ops)).
Proof.
  unfold run. induction ops as [|op ops IH] using rev_ind.
  - apply Forall_nil_2.
  - rewrite fold_left_app. cbn [fold_left]. by apply step_lockout_consistent.
Qed.

(** One failed password check on an active, unlocked account. *)
Lemma wrong_password_step (s : Store) (username password : string)
    (env : AuthEnv) (u : User) :
  select_user username (users s) = Some u →
  is_locked (now_lock_check env) u = false →
  u_is_active u = true →
  hash_password password (u_salt u) ≠ u_password_hash u →
  select_user username
    (users (out_store (authenticate hash_password s username password env)))
  = Some (set_failure (u_failed_login_attempts u + 1)
            (if Z.leb 5 (u_failed_login_attempts u + 1)
             then Some (now_action env + timedelta_minutes 30) else None) u).
Proof.
  intros Hsel Hl Ha Hw.
  rewrite (authenticate_wrong_password s _ _ _ u) by assumption.
  cbn [out_store with_users users].
  by apply select_user_update_own.
Qed.

(** Five failed password checks in a row, from a counter at zero, on an
    active account that is not locked at the first of them. *)
Lemma five_wrong_passwords_lock (s : Store) (username : string) (u : User)
    (p1 p2 p3 p4 p5 : string) (e1 e2 e3 e4 e5 : AuthEnv) :
  select_user username (users s) = Some u →
  u_failed_login_attempts u = 0 →
  u_is_active u = true →
  is_locked (now_lock_check e1) u = false →
  hash_password p1 (u_salt u) ≠ u_password_hash u →
  hash_password p2 (u_salt u) ≠ u_password_hash u →
  hash_password p3 (u_salt u) ≠ u_password_hash u →
  hash_password p4 (u_salt u) ≠ u_password_hash u →
  hash_password p5 (u_salt u) ≠ u_password_hash u →
  let s1 := out_store (authenticate hash_password s username p1 e1) in
  let s2 := out_store (authenticate hash_password s1 username p2 e2) in
  let s3 := out_store (authenticate hash_password s2 username p3 e3) in
  let s4 := out_store (authenticate hash_password s3 username p4 e4) in
  let s5 := out_store (authenticate hash_password s4 username p5 e5) in
  select_user username (users s5)
  = Some (set_failure 5 (Some (now_action e5 + timedelta_minutes 30)) u).
Proof.
  intros Hsel H0 Ha Hl H1 H2 H3 H4 H5 s1 s2 s3 s4 s5.
  pose proof (wrong_password_step s username p1 e1 u Hsel Hl Ha H1) as S1.
  fold s1 in S1. rewrite H0 in S1. cbn in S1.
  pose proof (wrong_password_step s1 username p2 e2 _ S1 eq_refl Ha H2) as S2.
  fold s2 in S2. cbn in S2.
  pose proof (wrong_password_step s2 username p3 e3 _ S2 eq_refl Ha H3) as S3.
  fold s3 in S3. cbn in S3.
  pose proof (wrong_password_step s3 username p4 e4 _ S3 eq_refl Ha H4) as S4.
  fold s4 in S4. cbn in S4.
  pose proof (wrong_password_step s4 username p5 e5 _ S4 eq_refl Ha H5) as S5.
  fold s5 in S5. cbn in S5. exact S5.
Qed.

(** C1 (amended). In a store produced by any sequence of calls, take an
    active account whose failed-attempt counter is 0.  Five consecutive
    [authenticate] calls with a wrong password leave it with a counter of 5
    and a lockout expiry 30 minutes after the time read at the fifth failure,
    and a sixth call that reads an earlier time is answered with the lockout
    message, whatever its password. *)
Theorem five_failures_lock_active_account (ops : list Op) (username : string)
    (u : User) (p1 p2 p3 p4 p5 p6 : string) (e1 e2 e3 e4 e5 e6 : AuthEnv) :
  select_user username (users (run hash_password ops)) = Some u →
  u_failed_login_attempts u = 0 →
  u_is_active u = true →
  hash_password p1 (u_salt u) ≠ u_password_hash u →
  hash_password p2 (u_salt u) ≠ u_password_hash u →
  hash_password p3 (u_salt u) ≠ u_password_hash u →
  hash_password p4 (u_salt u) ≠ u_password_hash u →
  hash_password p5 (u_salt u) ≠ u_password_hash u →
  now_lock_check e6 < now_action e5 + timedelta_minutes 30 →
  let s1 := out_store (authenticate hash_password (run hash_password ops)
                         username p1 e1) in
  let s2 := out_store (authenticate hash_password s1 username p2 e2) in
  let s3 := out_store (authenticate hash_password s2 username p3 e3) in
  let s4 := out_store (authenticate hash_password s3 username p4 e4) in
  let s5 := out_store (authenticate hash_password s4 username p5 e5) in
  select_user username (users s5)
  = Some (set_failure 5 (Some (now_action e5 + timedelta_minutes 30)) u)
  ∧ authenticate hash_password s5 username p6 e6 = mkOutcome s5 None [MSG_LOCKED].
Proof.
  intros Hsel H0 Ha H1 H2 H3 H4 H5 Hwin s1 s2 s3 s4 s5.
  assert (Hl : is_locked (now_lock_check e1) u = false).
  { pose proof (run_lockout_consistent ops) as Hinv.
    rewrite Forall_forall in Hinv.
    apply select_user_elem in Hsel as Hin. destruct Hin as [Hin _].
    unfold is_locked. rewrite (Hinv u Hin); [reflexivity|lia]. }
  pose proof (five_wrong_passwords_lock _ username u p1 p2 p3 p4 p5 e1 e2 e3 e4 e5
                Hsel H0 Ha Hl H1 H2 H3 H4 H5) as S5.
  cbv zeta in S5. fold s1 s2 s3 s4 s5 in S5.
  split; [exact S5|].
  eapply authenticate_locked; [exact S5|].
  eapply is_locked_true; [reflexivity|exact Hwin].
Qed.

Lemma authenticate_success_inv (s : Store) (username password : string)
    (env : AuthEnv) (info : LoginInfo) :
  out_value (authenticate hash_password s username password env) = Some info →
  ∃ u, select_user username (users s) = Some u
       ∧ li_user_id info = u_id u
       ∧ users (out_store (authenticate hash_password s username password env))
         = update_users (u_id u) (set_success (current_timestamp env)) (users s).
Proof.
  unfold authenticate.
  destruct (select_user username (users s)) as [u|]; [|discriminate].
  destruct (is_locked (now_lock_check env) u); [discriminate|].
  destruct (negb (u_is_active u)); [discriminate|].
  destruct (negb (String.eqb (hash_password password (u_salt u)) (u_password_hash u)));
    [discriminate|].
  destruct (existsb _ (sessions s)); [discriminate|].
  cbn. intros [= <-]. exists u. done.
Qed.

(** C2 (amended). Whenever [authenticate] succeeds, the rows of the account
    it selected have their failed-attempt counter at zero and their lockout
    expiry cleared.  The lapse of a lockout expiry clears nothing by itself:
    a call that ends before the password is verified, because the login name
    selects no account or selects one that is locked or deactivated, returns
    the store it was given. *)
Theorem success_resets_counter_and_lockout (s : Store) (username password : string)
    (env : AuthEnv) :
  (∀ info,
     out_value (authenticate hash_password s username password env) = Some info →
     ∃ u, select_user username (users s) = Some u
          ∧ li_user_id info = u_id u
          ∧ select_user username
              (users (out_store (authenticate hash_password s username password env)))
            = Some (set_success (current_timestamp env) u)
          ∧ Forall (λ v, u_id v = u_id u →
                         u_failed_login_attempts v = 0 ∧ u_locked_until v = None)
              (users (out_store (authenticate hash_password s username password env))))
  ∧ (∀ u, select_user username (users s) = Some u →
          is_locked (now_lock_check env) u = true ∨ u_is_active u = false →
          out_store (authenticate hash_password s username password env) = s)
  ∧ (select_user username (users s) = None →
     out_store (authenticate hash_password s username password env) = s).
Proof.
  split; [|split].
  - intros info Hinfo.
    destruct (authenticate_success_inv s username password env info Hinfo)
      as (u & Hsel & Hid & Hus).
    exists u. rewrite Hus. repeat split; try assumption.
    + by apply select_user_update_own.
    + unfold update_users. apply Forall_map, Forall_forall. intros v _. cbn.
      destruct (Z.eqb (u_id v) (u_id u)) eqn:E; [done|].
      intros Heq. apply Z.eqb_neq in E. contradiction.
  - intros u Hsel [Hl|Ha]; unfold authenticate; rewrite Hsel.
    + by rewrite Hl.
    + rewrite Ha. destruct (is_locked (now_lock_check env) u); reflexivity.
  - intros Hsel. by rewrite authenticate_unknown.
Qed.

End AuthSystemProperties.

(** * Examples *)

Ltac differ := let H := fresh in intros H; vm_compute in H; discriminate H.

(** The lockout scenario of the specification: [alice] registers, fails five
    times with ["wrong"] at times 1 to 5, and is refused at time 6 with her
    real password. *)
Lemma five_failures_lock_active_account_witness :
  select_user "alice" (users sample_store_registered) = Some sample_alice
  ∧ u_failed_login_attempts sample_alice = 0
  ∧ u_is_active sample_alice = true
  ∧ sample_hash "wrong" (u_salt sample_alice) ≠ u_password_hash sample_alice
  ∧ select_user "alice" (users sample_store_locked)
    = Some (set_failure 5 (Some (5 + timedelta_minutes 30)) sample_alice)
  ∧ authenticate sample_hash sample_store_locked "alice" "Secret1!"
      (sample_auth_env 6 "t6")
    = mkOutcome sample_store_locked None [MSG_LOCKED].
Proof.
  assert (Hw : sample_hash "wrong" (u_salt sample_alice)
               ≠ u_password_hash sample_alice) by differ.
  assert (Hsel : select_user "alice" (users (run sample_hash sample_register))
                 = Some sample_alice) by reflexivity.
  assert (Hwin : now_lock_check (sample_auth_env 6 "t6")
                 < now_action (sample_auth_env 5 "t5") + timedelta_minutes 30)
    by reflexivity.
  destruct (five_failures_lock_active_account sample_hash sample_register "alice"
              sample_alice "wrong" "wrong" "wrong" "wrong" "wrong" "Secret1!"
              (sample_auth_env 1 "t1") (sample_auth_env 2 "t2")
              (sample_auth_env 3 "t3") (sample_auth_env 4 "t4")
              (sample_auth_env 5 "t5") (sample_auth_env 6 "t6")
              Hsel eq_refl eq_refl Hw Hw Hw Hw Hw Hwin) as [Hlock Hsix].
  split; [exact Hsel|]. split; [reflexivity|]. split; [reflexivity|].
  split; [exact Hw|]. split; [exact Hlock|exact Hsix].
Defined.

(** C1 as stated fails on a deactivated account: its counter is 0, five
    calls with a wrong password end at the deactivation test and set no
    lockout, and the sixth call is answered with the deactivation message. *)
Lemma five_failures_deactivated_account_no_lock :
  select_user "alice" (users sample_store_deactivated) = Some (user_off sample_alice)
  ∧ u_failed_login_attempts (user_off sample_alice) = 0
  ∧ sample_hash "wrong" (u_salt sample_alice) ≠ u_password_hash sample_alice
  ∧ sample_store_deactivated_failures = sample_store_deactivated
  ∧ select_user "alice" (users sample_store_deactivated_failures)
    ≠ Some (set_failure 5 (Some (5 + timedelta_minutes 30)) (user_off sample_alice))
  ∧ authenticate sample_hash sample_store_deactivated_failures "alice" "Secret1!"
      (sample_auth_env 6 "t6")
    = mkOutcome sample_store_deactivated_failures None [MSG_DEACTIVATED]
  ∧ authenticate sample_hash sample_store_deactivated_failures "alice" "Secret1!"
      (sample_auth_env 6 "t6")
    ≠ mkOutcome sample_store_deactivated_failures None [MSG_LOCKED].
Proof.
  split; [reflexivity|]. split; [reflexivity|]. split; [differ|].
  split; [reflexivity|]. split; [differ|]. split; [reflexivity|differ].
Qed.

(** [alice] logs in right after registration: her row is reset.  A call for
    her once she is deactivated, and a call for the unknown [bob], return the
    store they were given. *)
Lemma success_resets_counter_and_lockout_witness :
  (∃ info,
     out_value (authenticate sample_hash sample_store_registered "alice" "Secret1!"
                  (sample_auth_env 10 "tok")) = Some info
     ∧ select_user "alice" (users sample_store_logged_in)
       = Some (set_success 10 sample_alice))
  ∧ out_store (authenticate sample_hash sample_store_deactivated "alice" "Secret1!"
                 (sample_auth_env 10 "tok")) = sample_store_deactivated
  ∧ out_store (authenticate sample_hash sample_store_registered "bob" "Secret1!"
                 (sample_auth_env 10 "tok")) = sample_store_registered.
Proof.
  destruct (success_resets_counter_and_lockout sample_hash sample_store_registered
              "alice" "Secret1!" (sample_auth_env 10 "tok")) as (Hok & _ & _).
  destruct (success_resets_counter_and_lockout sample_hash sample_store_deactivated
              "alice" "Secret1!" (sample_auth_env 10 "tok")) as (_ & Hoff & _).
  destruct (success_resets_counter_and_lockout sample_hash sample_store_registered
              "bob" "Secret1!" (sample_auth_env 10 "tok")) as (_ & _ & Hnone).
  split; [|split].
  - destruct (Hok _ eq_refl) as (u & Hsel & _ & Hnew & _).
    eexists. split; [reflexivity|].
    assert (u = sample_alice) as ->
      by (change (Some sample_alice = Some u) in Hsel; congruence).
    exact Hnew.
  - exact (Hoff (user_off sample_alice) eq_refl (or_intror eq_refl)).
  - exact (Hnone eq_refl).
Defined.

(** C2 as stated fails.  [alice] is locked until 1800000005 by five failures
    and then deactivated.  A call for her at time 2000000000 reads the lapsed
    expiry, ends at the deactivation test and leaves it in the row; so does a
    call, at that time, for a login name that selects nobody. *)
Lemma lapsed_lockout_expiry_retained :
  select_user "alice"
    (users (out_store (authenticate sample_hash sample_store_locked_deactivated
                         "alice" "Secret1!" (sample_auth_env 2000000000 "t7"))))
  = Some (user_off (set_failure 5 (Some 1800000005) sample_alice))
  ∧ u_locked_until (user_off (set_failure 5 (Some 1800000005) sample_alice))
    = Some 1800000005
  ∧ 1800000005 < now_lock_check (sample_auth_env 2000000000 "t7")
  ∧ select_user "alice"
      (users (out_store (authenticate sample_hash sample_store_locked
                           "bob" "Secret1!" (sample_auth_env 2000000000 "t7"))))
    = Some (set_failure 5 (Some 1800000005) sample_alice).
Proof.
  split; [reflexivity|]. split; [reflexivity|]. split; reflexivity.
Qed.

(** [bob] is unknown to the store in which [alice] is registered; a wrong
    password for [alice] gives the caller the same answer. *)
Lemma unknown_identifier_like_wrong_password_witness :
  authenticate sample_hash sample_store_registered "bob" "guess"
    (sample_auth_env 1 "t1")
  = mkOutcome sample_store_registered None []
  ∧ out_value (authenticate sample_hash sample_store_registered "alice" "wrong"
                 (sample_auth_env 1 "t1")) = None
  ∧ out_errors (authenticate sample_hash sample_store_registered "alice" "wrong"
                  (sample_auth_env 1 "t1")) = [].
Proof.
  assert (Hnone : ∀ v, v ∈ users sample_store_registered →
                       u_username v ≠ "bob" ∧ u_email v ≠ "bob").
  { intros v Hv. change (v ∈ [sample_alice]) in Hv.
    apply list_elem_of_singleton in Hv as ->. split; differ. }
  assert (Hw : sample_hash "wrong" (u_salt sample_alice)
               ≠ u_password_hash sample_alice) by differ.
  destruct (unknown_identifier_like_wrong_password sample_hash
              sample_store_registered "bob" "guess" (sample_auth_env 1 "t1")
              sample_store_registered "alice" "wrong" (sample_auth_env 1 "t1")
              sample_alice Hnone eq_refl eq_refl eq_refl Hw) as (H1 & H2 & H3).
  split; [exact H1|]. rewrite H1 in H2, H3. split; [exact H2|exact H3].
Defined.

(** The session of [alice], issued at time 10, expires at 28800000010. *)
Lemma validate_session_fails_closed_witness :
  validate_session sample_store_logged_in "nope" 11
  = mkOutcome sample_store_logged_in None []
  ∧ validate_session (logout sample_store_logged_in "tok") "tok" 11
    = mkOutcome (logout sample_store_logged_in "tok") None []
  ∧ out_value (validate_session sample_store_logged_in "tok" 30000000000) = None
  ∧ sessions sample_store_logged_in
    = [mkSession 1 1 "tok" 10 28800000010 true "127.0.0.1" "Streamlit"]
  ∧ sessions (out_store (validate_session sample_store_logged_in "tok"
                           30000000000)) !! 0%nat
    = Some (mkSession 1 1 "tok" 10 28800000010 false "127.0.0.1" "Streamlit")
  ∧ length (sessions (out_store (validate_session sample_store_logged_in "tok"
                                   30000000000))) = 1%nat.
Proof.
  destruct (validate_session_fails_closed sample_store_logged_in "nope" 11)
    as (Hnever & _).
  destruct (validate_session_fails_closed (logout sample_store_logged_in "tok")
              "tok" 11) as (_ & Hoff & _).
  destruct (validate_session_fails_closed sample_store_logged_in "tok" 30000000000)
    as (_ & _ & Hpast & Hflip).
  assert (Hall : ∀ x, x ∈ sessions sample_store_logged_in →
                      s_session_token x = "tok" → s_expires_at x < 30000000000).
  { intros x Hx _.
    change (x ∈ [mkSession 1 1 "tok" 10 28800000010 true "127.0.0.1" "Streamlit"])
      in Hx.
    by apply list_elem_of_singleton in Hx as ->. }
  assert (Hne : "tok" ≠ EmptyString) by discriminate.
  destruct (Hflip (mkSession 1 1 "tok" 10 28800000010 true "127.0.0.1" "Streamlit")
              Hne (list_elem_of_here _ _) eq_refl eq_refl (list_elem_of_here _ _)
              Hall)
    as (_ & _ & _ & _ & _ & Hlen & Hrows & _).
  split; [|split; [|split; [|split; [|split]]]].
  - apply Hnever. intros se Hse.
    change (se ∈ [mkSession 1 1 "tok" 10 28800000010 true "127.0.0.1" "Streamlit"])
      in Hse.
    apply list_elem_of_singleton in Hse as ->. differ.
  - apply Hoff. intros se Hse _.
    change (se ∈ [mkSession 1 1 "tok" 10 28800000010 false "127.0.0.1" "Streamlit"])
      in Hse.
    by apply list_elem_of_singleton in Hse as ->.
  - by apply Hpast.
  - reflexivity.
  - exact (Hrows 0%nat _ eq_refl).
  - exact Hlen.
Defined.

(** [alice] logs out, once and twice. *)
Lemma logout_idempotent_witness :
  sessions sample_store_logged_in
  = [mkSession 1 1 "tok" 10 28800000010 true "127.0.0.1" "Streamlit"]
  ∧ sessions (logout sample_store_logged_in "tok") !! 0%nat
    = Some (mkSession 1 1 "tok" 10 28800000010 false "127.0.0.1" "Streamlit")
  ∧ length (sessions (logout sample_store_logged_in "tok")) = 1%nat
  ∧ logout (logout sample_store_logged_in "tok") "tok"
    = logout sample_store_logged_in "tok"
  ∧ out_value (validate_session (logout sample_store_logged_in "tok") "tok" 11)
    = None.
Proof.
  destruct (logout_idempotent sample_store_logged_in "tok" 11)
    as (Hidem & _ & _ & _ & Hlen & Hrows & _ & _ & Hval & _).
  split; [reflexivity|]. split; [exact (Hrows 0%nat _ eq_refl)|].
  split; [exact Hlen|]. split; [exact Hidem|exact Hval].
Defined.

(** [alice] cannot be registered again, under her username or her e-mail. *)
Lemma create_user_duplicate_rejected_witness :
  sample_alice ∈ users sample_store_registered
  ∧ create_user sample_hash sample_store_registered "alice" "other@x.com" "pw"
      UserRole.GUEST (mkCreateEnv "0b2c" 1)
    = mkOutcome sample_store_registered false []
  ∧ create_user sample_hash sample_store_registered "alice2" "alice@x.com" "pw"
      UserRole.GUEST (mkCreateEnv "0b2c" 1)
    = mkOutcome sample_store_registered false [].
Proof.
  assert (Hin : sample_alice ∈ users sample_store_registered)
    by exact (list_elem_of_here sample_alice []).
  split; [exact Hin|]. split.
  - exact (create_user_duplicate_rejected sample_hash sample_store_registered
             sample_alice "alice" "other@x.com" "pw" UserRole.GUEST
             (mkCreateEnv "0b2c" 1) Hin (or_introl eq_refl)).
  - exact (create_user_duplicate_rejected sample_hash sample_store_registered
             sample_alice "alice2" "alice@x.com" "pw" UserRole.GUEST
             (mkCreateEnv "0b2c" 1) Hin (or_intror eq_refl)).
Defined.

(** [alice], locked until 1800000005, is refused at time 6 with her real
    password. *)
Lemma locked_account_rejected_unchanged_witness :
  select_user "alice" (users sample_store_locked)
  = Some (set_failure 5 (Some 1800000005) sample_alice)
  ∧ authenticate sample_hash sample_store_locked "alice" "Secret1!"
      (sample_auth_env 6 "t6")
    = mkOutcome sample_store_locked None [MSG_LOCKED].
Proof.
  split; [reflexivity|].
  exact (proj1 (locked_account_rejected_unchanged sample_hash sample_store_locked
                  "alice" "Secret1!" (sample_auth_env 6 "t6")
                  (set_failure 5 (Some 1800000005) sample_alice) 1800000005
                  eq_refl eq_refl eq_refl)).
Defined.

(** [alice], deactivated, is refused with her real password, and
    deactivating her again changes nothing to that. *)
Lemma deactivated_account_rejected_witness :
  select_user "alice" (users sample_store_deactivated) = Some (user_off sample_alice)
  ∧ u_is_active (user_off sample_alice) = false
  ∧ authenticate sample_hash sample_store_deactivated "alice" "Secret1!"
      (sample_auth_env 6 "t6")
    = mkOutcome sample_store_deactivated None [MSG_DEACTIVATED]
  ∧ authenticate sample_hash (out_store (deactivate_user sample_store_registered 1))
      "alice" "Secret1!" (sample_auth_env 6 "t6")
    = mkOutcome (out_store (deactivate_user sample_store_registered 1)) None
        [MSG_DEACTIVATED].
Proof.
  destruct (deactivated_account_rejected sample_hash sample_store_deactivated
              "alice" "Secret1!" (sample_auth_env 6 "t6") (user_off sample_alice)
              eq_refl eq_refl) as [Hflag _].
  destruct (deactivated_account_rejected sample_hash sample_store_registered
              "alice" "Secret1!" (sample_auth_env 6 "t6") sample_alice
              eq_refl eq_refl) as [_ Hcall].
  split; [reflexivity|]. split; [reflexivity|].
  split; [exact (Hflag eq_refl)|exact (Hcall eq_refl)].
Defined.

(** * Further properties *)

(** ** The permission table, for every role name *)

Lemma has_permission_elem (permissions : list string) (permission : string) :
  has_permission permissions permission = true ↔ permission ∈ permissions.
Proof.
  unfold has_permission. rewrite existsb_exists. split.
  - intros (x & Hin & Heq). apply String.eqb_eq in Heq. subst x.
    by apply list_elem_of_In.
  - intros Hin. exists permission. split; [by apply list_elem_of_In|].
    apply String.eqb_refl.
Qed.

Lemma role_permissions_analyst :
  role_permissions UserRole.ANALYST =
    [Permission.READ_DATA; Permission.WRITE_DATA; Permission.VIEW_ANALYTICS;
     Permission.EXPORT_DATA; Permission.CREATE_DASHBOARDS;
     Permission.VIEW_QUERY_HISTORY; Permission.SHARE_QUERIES].
Proof. reflexivity. Qed.

Lemma role_permissions_viewer :
  role_permissions UserRole.VIEWER =
    [Permission.READ_DATA; Permission.VIEW_ANALYTICS; Permission.EXPORT_DATA;
     Permission.VIEW_QUERY_HISTORY].
Proof. reflexivity. Qed.

Lemma role_permissions_other (role : string) :
  role ∉ [UserRole.ADMIN; UserRole.ANALYST; UserRole.VIEWER; UserRole.GUEST] →
  role_permissions role = [].
Proof.
  intros Hout. rewrite !not_elem_of_cons in Hout.
  destruct Hout as (H1 & H2 & H3 & H4 & _).
  unfold role_permissions, ROLE_PERMISSIONS.
  rewrite !lookup_insert_ne by done. by rewrite lookup_empty.
Qed.

(** The table, role by role. *)
Lemma role_permissions_cases (role : string) :
  role = UserRole.ADMIN ∨ role = UserRole.ANALYST ∨ role = UserRole.VIEWER
  ∨ role = UserRole.GUEST
  ∨ role ∉ [UserRole.ADMIN; UserRole.ANALYST; UserRole.VIEWER; UserRole.GUEST].
Proof.
  destruct (decide (role = UserRole.ADMIN)); [by left|].
  destruct (decide (role = UserRole.ANALYST)); [by right; left|].
  destruct (decide (role = UserRole.VIEWER)); [by right; right; left|].
  destruct (decide (role = UserRole.GUEST)); [by right; right; right; left|].
  right; right; right; right. rewrite !not_elem_of_cons. repeat split; try done.
  apply not_elem_of_nil.
Qed.

(** X1. A role name has no permission at all exactly when it is none of the four
    names of the table. *)
Theorem role_without_permissions (role : string) :
  role_permissions role = []
  ↔ role ∉ [UserRole.ADMIN; UserRole.ANALYST; UserRole.VIEWER; UserRole.GUEST].
Proof.
  split.
  - intros Hnil Hin. rewrite !elem_of_cons, elem_of_nil in Hin.
    destruct Hin as [->|[->|[->|[->|[]]]]]; discriminate Hnil.
  - apply role_permissions_other.
Qed.

(** X2. The four roles are nested: what [guest] may do [viewer] may do, what
    [viewer] may do [analyst] may do, and what [analyst] may do [admin] may
    do. *)
Theorem roles_nested :
  role_permissions UserRole.GUEST ⊆ role_permissions UserRole.VIEWER
  ∧ role_permissions UserRole.VIEWER ⊆ role_permissions UserRole.ANALYST
  ∧ role_permissions UserRole.ANALYST ⊆ role_permissions UserRole.ADMIN.
Proof.
  rewrite role_permissions_guest, role_permissions_viewer,
    role_permissions_analyst, role_permissions_admin.
  repeat split; intros p Hp; apply list_elem_of_In in Hp;
    apply list_elem_of_In; cbn in Hp |- *;
    repeat (destruct Hp as [<-|Hp]; [auto 12|]); destruct Hp.
Qed.

(** X3. Whatever the role name, the permissions to manage users, to delete data
    and to manage schemas come with the name [admin] and with no other. *)
Theorem admin_only_permissions (role permission : string) :
  permission ∈ [Permission.MANAGE_USERS; Permission.DELETE_DATA;
                Permission.MANAGE_SCHEMAS] →
  (has_permission (role_permissions role) permission = true
   ↔ role = UserRole.ADMIN).
Proof.
  intros Hp. rewrite has_permission_elem.
  rewrite !elem_of_cons, elem_of_nil in Hp.
  destruct (role_permissions_cases role) as [->|[->|[->|[->|Hout]]]].
  - split; [done|]. intros _. rewrite role_permissions_admin.
    apply list_elem_of_In. cbn.
    destruct Hp as [->|[->|[->|[]]]]; auto 12.
  - rewrite role_permissions_analyst. split; [|discriminate].
    rewrite !elem_of_cons, elem_of_nil.
    destruct Hp as [->|[->|[->|[]]]]; intros H; repeat destruct H as [H|H];
      discriminate H || destruct H.
  - rewrite role_permissions_viewer. split; [|discriminate].
    rewrite !elem_of_cons, elem_of_nil.
    destruct Hp as [->|[->|[->|[]]]]; intros H; repeat destruct H as [H|H];
      discriminate H || destruct H.
  - rewrite role_permissions_guest. split; [|discriminate].
    rewrite !elem_of_cons, elem_of_nil.
    destruct Hp as [->|[->|[->|[]]]]; intros H; repeat destruct H as [H|H];
      discriminate H || destruct H.
  - rewrite (role_permissions_other role Hout). split.
    + intros H. by apply elem_of_nil in H.
    + intros ->. exfalso. apply Hout. apply list_elem_of_here.
Qed.

(** ** What no call changes *)

Lemma next_rowid_above (ids : list Z) (x : Z) : x ∈ ids → x < next_rowid ids.
Proof.
  unfold next_rowid. induction ids as [|y ids IH]; intros Hx.
  - by apply elem_of_nil in Hx.
  - cbn [foldr]. apply elem_of_cons in Hx as [->|Hx]; [lia|].
    specialize (IH Hx). lia.
Qed.

Lemma next_rowid_fresh (ids : list Z) : next_rowid ids ∉ ids.
Proof. intros Hin. apply next_rowid_above in Hin. lia. Qed.

Lemma map_update_users {B : Type} (g : User → B) (user_id : Z) (f : User → User)
    (us : list User) :
  (∀ u, g (f u) = g u) → map g (update_users user_id f us) = map g us.
Proof.
  intros Hg. unfold update_users. rewrite map_map. apply map_ext. intros u.
  destruct (Z.eqb (u_id u) user_id); [apply Hg|reflexivity].
Qed.

Lemma map_sessions_off_by_token {B : Type} (g : Session → B) (session_token : string)
    (ss : list Session) :
  (∀ se, g (session_off se) = g se) →
  map g (sessions_off_by_token session_token ss) = map g ss.
Proof.
  intros Hg. unfold sessions_off_by_token. rewrite map_map. apply map_ext.
  intros se. destruct (String.eqb (s_session_token se) session_token);
    [apply Hg|reflexivity].
Qed.

Lemma map_sessions_off_by_user {B : Type} (g : Session → B) (user_id : Z)
    (ss : list Session) :
  (∀ se, g (session_off se) = g se) →
  map g (sessions_off_by_user user_id ss) = map g ss.
Proof.
  intros Hg. unfold sessions_off_by_user. rewrite map_map. apply map_ext.
  intros se. destruct (Z.eqb (s_user_id se) user_id); [apply Hg|reflexivity].
Qed.

Section StoreProperties.

Variable hash_password : string → string → string.

(** The shape of the tables after a call: rows are kept in place, with
    their identifying columns, and rows are only appended. *)
Lemma step_keys (s : Store) (op : Op) :
  (∃ new,
     map account_key (users (step hash_password s op))
     = (map account_key (users s) ++ map account_key new)%list)
  ∧ (∃ new,
     map session_key (sessions (step hash_password s op))
     = (map session_key (sessions s) ++ map session_key new)%list).
Proof.
  assert (Hsame : ∀ s' : Store,
            map account_key (users s') = map account_key (users s) →
            map session_key (sessions s') = map session_key (sessions s) →
            (∃ new,
               map account_key (users s')
               = (map account_key (users s) ++ map account_key new)%list)
            ∧ (∃ new,
               map session_key (sessions s')
               = (map session_key (sessions s) ++ map session_key new)%list)).
  { intros s' Hu Hs. split; exists []; cbn; by rewrite app_nil_r. }
  destruct op; cbn [step].
  - unfold create_default_admin.
    destruct (Z.eqb _ 0); [|by apply Hsame].
    destruct (user_preferences s !! _); [by apply Hsame|].
    cbn. split.
    + eexists [_]. by rewrite map_app.
    + exists []. by rewrite app_nil_r.
  - unfold create_user.
    destruct (existsb _ (users s)); [by apply Hsame|].
    destruct (user_preferences s !! _); [by apply Hsame|].
    cbn. split.
    + eexists [_]. by rewrite map_app.
    + exists []. by rewrite app_nil_r.
  - unfold authenticate.
    destruct (select_user username (users s)) as [u|]; [|by apply Hsame].
    destruct (is_locked (now_lock_check env) u); [by apply Hsame|].
    destruct (negb (u_is_active u)); [by apply Hsame|].
    destruct (negb (String.eqb _ (u_password_hash u))).
    + apply Hsame; [|reflexivity]. cbn. by apply map_update_users.
    + destruct (existsb _ (sessions s)); [by apply Hsame|].
      cbn. split.
      * exists []. rewrite app_nil_r. by apply map_update_users.
      * eexists [_]. by rewrite map_app.
  - unfold validate_session.
    destruct (String.eqb session_token EmptyString); [by apply Hsame|].
    destruct (head _) as [[se u]|]; [|by apply Hsame].
    destruct (Z.ltb _ now).
    + apply Hsame; [reflexivity|]. cbn. by apply map_sessions_off_by_token.
    + destruct (negb _); by apply Hsame.
  - apply Hsame; [reflexivity|]. cbn. by apply map_sessions_off_by_token.
  - unfold update_user_role. destruct (sqlite_integer user_id); [|by apply Hsame].
    apply Hsame; [|reflexivity]. cbn. by apply map_update_users.
  - unfold deactivate_user. destruct (sqlite_integer user_id); [|by apply Hsame].
    apply Hsame; cbn.
    + by apply map_update_users.
    + by apply map_sessions_off_by_user.
  - unfold log_query. destruct (Z.eqb user_id 999); [by apply Hsame|].
    destruct (_ && _); by apply Hsame.
Qed.

(** X4. Whatever is called, in whatever order: no account and no session is
    ever removed or moved; an account keeps its id, username, e-mail
    address, password hash and salt, so that no call changes a password; and
    a session keeps its owner, token, creation time and expiry, so that no
    call extends the life of a session. *)
Theorem rows_kept_by_every_call (s : Store) (ops : list Op) :
  map account_key (users s)
    `prefix_of` map account_key (users (fold_left (step hash_password) ops s))
  ∧ map session_key (sessions s)
    `prefix_of` map session_key (sessions (fold_left (step hash_password) ops s)).
Proof.
  induction ops as [|op ops IH] using rev_ind; [done|].
  rewrite fold_left_app. cbn [fold_left].
  destruct IH as [IHu IHs].
  destruct (step_keys (fold_left (step hash_password) ops s) op)
    as [(nu & Hu) (ns & Hs)].
  split.
  - etrans; [exact IHu|]. rewrite Hu. by apply prefix_app_r.
  - etrans; [exact IHs|]. rewrite Hs. by apply prefix_app_r.
Qed.


(** ** What the checks of the code keep true *)

Lemma sessions_owned_iff (s : Store) :
  (∀ se, se ∈ sessions s → s_user_id se ∈ map u_id (users s))
  ↔ map s_user_id (sessions s) ⊆ map u_id (users s).
Proof.
  split.
  - intros H x Hx. apply list_elem_of_fmap in Hx as (se & -> & Hse). by apply H.
  - intros H se Hse. apply H. by apply list_elem_of_fmap_2.
Qed.

Lemma consistent_same_keys (s s' : Store) :
  store_consistent s →
  map u_id (users s') = map u_id (users s) →
  map u_username (users s') = map u_username (users s) →
  map u_email (users s') = map u_email (users s) →
  map s_id (sessions s') = map s_id (sessions s) →
  map s_session_token (sessions s') = map s_session_token (sessions s) →
  map s_user_id (sessions s') = map s_user_id (sessions s) →
  user_preferences s' = user_preferences s →
  store_consistent s'.
Proof.
  intros (H1 & H2 & H3 & H4 & H5 & H6 & H7) E1 E2 E3 E4 E5 E6 E7.
  unfold store_consistent. rewrite sessions_owned_iff in H6 |- *.
  rewrite E1, E2, E3, E4, E5, E6, E7. done.
Qed.

Lemma existsb_false_elem {A : Type} (p : A → bool) (l : list A) :
  existsb p l = false → ∀ x, x ∈ l → p x = false.
Proof.
  intros H x Hx. destruct (p x) eqn:E; [|reflexivity].
  rewrite (existsb_elem p l x Hx E) in H. discriminate H.
Qed.

Lemma consistent_new_user (s : Store) (row : User) :
  store_consistent s →
  u_id row = next_rowid (map u_id (users s)) →
  existsb (matches_user (u_username row) (u_email row)) (users s) = false →
  store_consistent
    (mkStore (users s ++ [row]) (sessions s) (query_history s)
       (<[u_id row := default_preferences]> (user_preferences s))).
Proof.
  intros (H1 & H2 & H3 & H4 & H5 & H6 & H7) Hid Hex.
  assert (Hfresh : u_id row ∉ map u_id (users s))
    by (rewrite Hid; apply next_rowid_fresh).
  assert (Hnew : ∀ v, v ∈ users s →
                      u_username v ≠ u_username row ∧ u_email v ≠ u_email row).
  { intros v Hv. pose proof (existsb_false_elem _ _ Hex v Hv) as E.
    unfold matches_user in E. apply orb_false_iff in E as [En Ee].
    by apply String.eqb_neq in En, Ee. }
  unfold store_consistent. cbn [users sessions user_preferences].
  rewrite !map_app. cbn [map].
  repeat split.
  - apply NoDup_app. split; [done|]. split; [|apply NoDup_singleton].
    intros x Hx Hx'. apply list_elem_of_singleton in Hx'. by subst x.
  - apply NoDup_app. split; [done|]. split; [|apply NoDup_singleton].
    intros x Hx Hx'. apply list_elem_of_singleton in Hx'. subst x.
    apply list_elem_of_fmap in Hx as (v & Heq & Hv).
    destruct (Hnew v Hv) as [Hn _]. by apply Hn.
  - apply NoDup_app. split; [done|]. split; [|apply NoDup_singleton].
    intros x Hx Hx'. apply list_elem_of_singleton in Hx'. subst x.
    apply list_elem_of_fmap in Hx as (v & Heq & Hv).
    destruct (Hnew v Hv) as [_ He]. by apply He.
  - done.
  - done.
  - intros se Hse. apply elem_of_app. left. by apply H6.
  - intros Hk. apply elem_of_app.
    destruct (decide (k = u_id row)) as [->|Hne].
    + right. apply list_elem_of_here.
    + left. apply H7. by rewrite lookup_insert_ne in Hk.
  - intros Hk. apply elem_of_app in Hk as [Hk|Hk].
    + destruct (decide (u_id row = k)) as [->|Hne].
      * by rewrite lookup_insert_eq.
      * rewrite lookup_insert_ne by done. by apply H7.
    + apply list_elem_of_singleton in Hk as ->. by rewrite lookup_insert_eq.
Qed.

Lemma consistent_preferences_free (s : Store) :
  store_consistent s →
  user_preferences s !! next_rowid (map u_id (users s)) = None.
Proof.
  intros (_ & _ & _ & _ & _ & _ & H7).
  destruct (user_preferences s !! next_rowid (map u_id (users s))) eqn:E;
    [|reflexivity].
  exfalso. apply (next_rowid_fresh (map u_id (users s))). apply H7. by rewrite E.
Qed.

Lemma consistent_new_session (s : Store) (us : list User) (row : Session) :
  store_consistent s →
  map u_id us = map u_id (users s) →
  map u_username us = map u_username (users s) →
  map u_email us = map u_email (users s) →
  s_id row = next_rowid (map s_id (sessions s)) →
  existsb (λ se, String.eqb (s_session_token se) (s_session_token row))
          (sessions s) = false →
  s_user_id row ∈ map u_id (users s) →
  store_consistent
    (mkStore us (sessions s ++ [row]) (query_history s) (user_preferences s)).
Proof.
  intros (H1 & H2 & H3 & H4 & H5 & H6 & H7) E1 E2 E3 Hid Hex Hown.
  unfold store_consistent. cbn [users sessions user_preferences].
  rewrite E1, E2, E3, !map_app. cbn [map].
  repeat split; try done.
  - apply NoDup_app. split; [done|]. split; [|apply NoDup_singleton].
    intros x Hx Hx'. apply list_elem_of_singleton in Hx'. subst x.
    rewrite Hid in Hx. by apply next_rowid_fresh in Hx.
  - apply NoDup_app. split; [done|]. split; [|apply NoDup_singleton].
    intros x Hx Hx'. apply list_elem_of_singleton in Hx'. subst x.
    apply list_elem_of_fmap in Hx as (se & Heq & Hse).
    pose proof (existsb_false_elem _ _ Hex se Hse) as E. cbn in E.
    apply String.eqb_neq in E. by apply E.
  - intros se Hse. apply elem_of_app in Hse as [Hse|Hse]; [by apply H6|].
    by apply list_elem_of_singleton in Hse as ->.
  - by apply H7.
  - by apply H7.
Qed.

Lemma step_consistent (s : Store) (op : Op) :
  store_consistent s → store_consistent (step hash_password s op).
Proof.
  intros Hs.
  assert (Hupd : ∀ (user_id : Z) (f : User → User) (ss : list Session),
            (∀ u, account_key (f u) = account_key u) →
            map s_id ss = map s_id (sessions s) →
            map s_session_token ss = map s_session_token (sessions s) →
            map s_user_id ss = map s_user_id (sessions s) →
            store_consistent
              (mkStore (update_users user_id f (users s)) ss (query_history s)
                       (user_preferences s))).
  { intros user_id f ss Hf E4 E5 E6.
    apply (consistent_same_keys s); try done; cbn [users];
      apply map_update_users; intros u; specialize (Hf u);
      unfold account_key in Hf; congruence. }
  assert (Hoff : ∀ ss : list Session,
            map s_id ss = map s_id (sessions s) →
            map s_session_token ss = map s_session_token (sessions s) →
            map s_user_id ss = map s_user_id (sessions s) →
            store_consistent (with_sessions s ss)).
  { intros ss E4 E5 E6. by apply (consistent_same_keys s). }
  destruct op; cbn [step].
  - unfold create_default_admin.
    destruct (Z.eqb _ 0) eqn:E0; [|exact Hs].
    rewrite (consistent_preferences_free s Hs). cbn [from_option]. unfold id.
    match goal with
    | |- store_consistent (mkStore (users s ++ [?row]) _ _ _) =>
        apply (consistent_new_user s row Hs eq_refl)
    end.
    destruct (users s); [reflexivity|]. cbn in E0. discriminate E0.
  - unfold create_user.
    destruct (existsb _ (users s)) eqn:Ex; [exact Hs|].
    rewrite (consistent_preferences_free s Hs). cbn [out_store].
    match goal with
    | |- store_consistent (mkStore (users s ++ [?row]) _ _ _) =>
        apply (consistent_new_user s row Hs eq_refl)
    end.
    exact Ex.
  - unfold authenticate.
    destruct (select_user username (users s)) as [u|] eqn:Hsel; [|exact Hs].
    destruct (is_locked (now_lock_check env) u); [exact Hs|].
    destruct (negb (u_is_active u)); [exact Hs|].
    destruct (negb (String.eqb _ (u_password_hash u))).
    + cbn [out_store]. by apply Hupd.
    + destruct (existsb _ (sessions s)) eqn:Ex; [exact Hs|].
      cbn [out_store].
      match goal with
      | |- store_consistent (mkStore ?us (sessions s ++ [?row]) _ _) =>
          apply (consistent_new_session s us row Hs)
      end; try (by apply map_update_users); try reflexivity.
      * exact Ex.
      * cbn [s_user_id]. apply list_elem_of_fmap_2.
        by apply select_user_elem in Hsel as [Hin _].
  - unfold validate_session.
    destruct (String.eqb session_token EmptyString); [exact Hs|].
    destruct (head _) as [[se u]|]; [|exact Hs].
    destruct (Z.ltb _ now).
    + cbn [out_store]. apply Hoff; by apply map_sessions_off_by_token.
    + destruct (negb _); exact Hs.
  - apply Hoff; by apply map_sessions_off_by_token.
  - unfold update_user_role. destruct (sqlite_integer user_id); [|exact Hs].
    cbn. by apply Hupd.
  - unfold deactivate_user. destruct (sqlite_integer user_id); [|exact Hs].
    cbn [out_store].
    apply Hupd; [done|..]; by apply map_sessions_off_by_user.
  - unfold log_query. destruct (Z.eqb user_id 999); [exact Hs|].
    destruct (_ && _); [|exact Hs].
    by apply (consistent_same_keys s).
Qed.

(** X5. In the store left by any sequence of calls on a new database, ids,
    usernames and e-mail addresses of accounts are pairwise distinct, so are
    ids and tokens of sessions, every session belongs to an account of the
    store, and the preferences table has a row for each account and for
    nothing else. *)
Theorem run_store_consistent (ops : list Op) :
  store_consistent (run hash_password ops).
Proof.
  unfold run. induction ops as [|op ops IH] using rev_ind.
  - unfold store_consistent. cbn. repeat split; try apply NoDup_nil_2.
    + intros se Hse. by apply elem_of_nil in Hse.
    + intros [x Hx]. by rewrite lookup_empty in Hx.
    + intros Hk. by apply elem_of_nil in Hk.
  - rewrite fold_left_app. cbn [fold_left]. by apply step_consistent.
Qed.

(** ** Creating an account and logging in *)

Lemma find_app_none {A : Type} (p : A → bool) (l k : list A) :
  List.find p l = None → List.find p (l ++ k) = List.find p k.
Proof.
  induction l as [|a l IH]; [done|]. cbn [List.find app].
  destruct (p a); [discriminate|exact IH].
Qed.

Lemma NoDup_map_inj_elem {A B : Type} (f : A → B) (l : list A) (x y : A) :
  NoDup (map f l) → x ∈ l → y ∈ l → f x = f y → x = y.
Proof.
  induction l as [|a l IH]; intros Hnd Hx Hy Heq.
  - by apply elem_of_nil in Hx.
  - cbn [map] in Hnd. apply NoDup_cons in Hnd as [Ha Hnd].
    apply elem_of_cons in Hx as [->|Hx]; apply elem_of_cons in Hy as [->|Hy].
    + reflexivity.
    + exfalso. apply Ha. rewrite Heq. by apply list_elem_of_fmap_2.
    + exfalso. apply Ha. rewrite <- Heq. by apply list_elem_of_fmap_2.
    + by apply IH.
Qed.

(** X6. In a store left by any sequence of calls, [create_user] refuses exactly
    when the username or the e-mail address is taken, and never shows a
    message: the uniqueness constraint of [user_preferences] cannot fire. *)
Theorem create_user_refuses_only_duplicates (ops : list Op)
    (username email password role : string) (env : CreateEnv) :
  out_value (create_user hash_password (run hash_password ops) username email
               password role env)
  = negb (existsb (matches_user username email)
            (users (run hash_password ops)))
  ∧ out_errors (create_user hash_password (run hash_password ops) username email
                  password role env) = [].
Proof.
  unfold create_user.
  destruct (existsb _ (users (run hash_password ops))); [done|].
  by rewrite (consistent_preferences_free _ (run_store_consistent ops)).
Qed.

Lemma select_user_new_row (login : string) (us : list User) (row : User) :
  select_user login us = None →
  u_username row = login ∨ u_email row = login →
  select_user login (us ++ [row]) = Some row.
Proof.
  unfold select_user. intros Hnone Hrow.
  destruct (List.find (λ u, String.eqb (u_username u) login) us) eqn:En;
    [discriminate Hnone|].
  rewrite !find_app_none by assumption. cbn [List.find].
  destruct (String.eqb_spec (u_username row) login) as [|Hn]; [reflexivity|].
  destruct Hrow as [Hrow|Hrow]; [contradiction|].
  apply String.eqb_eq in Hrow. by rewrite Hrow.
Qed.

(** X7. An account that has just been created can log in, by its username or
    by its e-mail address, provided that login name selected no account
    before and the token drawn for the session is new: the call returns the
    account with the role it was created with and the permissions of that
    role. *)
Theorem created_account_can_log_in (s : Store)
    (username email password role login : string) (cenv : CreateEnv)
    (env : AuthEnv) :
  out_value (create_user hash_password s username email password role cenv) = true →
  login = username ∨ login = email →
  select_user login (users s) = None →
  (∀ se, se ∈ sessions s → s_session_token se ≠ new_session_token env) →
  out_value (authenticate hash_password
               (out_store (create_user hash_password s username email password
                             role cenv)) login password env)
  = Some (mkLoginInfo (next_rowid (map u_id (users s))) username email role
            (new_session_token env) (role_permissions role)).
Proof.
  intros Hok Hlogin Hnone Hfresh. unfold create_user in *.
  destruct (existsb _ (users s)); [discriminate Hok|].
  destruct (user_preferences s !! _); [discriminate Hok|].
  cbn [out_store]. unfold authenticate. cbn [users sessions].
  rewrite (select_user_new_row login (users s)
             (mkUser (next_rowid (map u_id (users s))) username email
                (hash_password password (new_salt cenv)) (new_salt cenv)
                role true (created_timestamp cenv) None 0 None) Hnone)
    by (cbn; destruct Hlogin as [->| ->]; [by left|by right]).
  cbn. rewrite String.eqb_refl. cbn.
  destruct (existsb _ (sessions s)) eqn:Ex; [|reflexivity].
  apply existsb_exists in Ex as (se & Hse & Heq).
  apply String.eqb_eq in Heq. apply list_elem_of_In in Hse.
  by destruct (Hfresh se Hse).
Qed.

Lemma filter_update_users_id (user_id k : Z) (f : User → User) (us : list User) :
  (∀ u, u_id (f u) = u_id u) →
  List.filter (λ u, Z.eqb (u_id u) k) (update_users user_id f us)
  = update_users user_id f (List.filter (λ u, Z.eqb (u_id u) k) us).
Proof.
  intros Hf. induction us as [|u us IH]; [reflexivity|].
  cbn [update_users map List.filter].
  assert (E : u_id (if Z.eqb (u_id u) user_id then f u else u) = u_id u)
    by (destruct (Z.eqb (u_id u) user_id); [apply Hf|reflexivity]).
  rewrite E. destruct (Z.eqb (u_id u) k).
  - cbn [update_users map]. f_equal. exact IH.
  - exact IH.
Qed.

Lemma filter_none {A : Type} (p : A → bool) (l : list A) :
  (∀ x, x ∈ l → p x = false) → List.filter p l = [].
Proof.
  induction l as [|a l IH]; intros H; [reflexivity|].
  cbn [List.filter]. rewrite (H a (list_elem_of_here a l)).
  apply IH. intros x Hx. apply H. by apply list_elem_of_further.
Qed.

Lemma filter_id_unique (us : list User) (u : User) :
  NoDup (map u_id us) → u ∈ us →
  List.filter (λ v, Z.eqb (u_id v) (u_id u)) us = [u].
Proof.
  induction us as [|a us IH]; intros Hnd Hu.
  - by apply elem_of_nil in Hu.
  - cbn [map] in Hnd. apply NoDup_cons in Hnd as [Ha Hnd].
    cbn [List.filter]. apply elem_of_cons in Hu as [->|Hu].
    + rewrite Z.eqb_refl. f_equal. apply filter_none. intros v Hv.
      apply Z.eqb_neq. intros Heq. apply Ha. rewrite <- Heq.
      by apply list_elem_of_fmap_2.
    + assert (E : Z.eqb (u_id a) (u_id u) = false).
      { apply Z.eqb_neq. intros Heq. apply Ha. rewrite Heq.
        by apply list_elem_of_fmap_2. }
      rewrite E. by apply IH.
Qed.

(** X8. A login that succeeds yields a token that validates: in a consistent
    store, if [authenticate] returns an account with a non-empty token, then
    [validate_session] on that token, at any time up to the expiry 8 hours
    after the login, returns the same account, role and permissions, and
    changes nothing. *)
Theorem login_token_validates (s : Store) (username password : string)
    (env : AuthEnv) (info : LoginInfo) (now : Z) :
  store_consistent s →
  out_value (authenticate hash_password s username password env) = Some info →
  li_session_token info ≠ EmptyString →
  (now ≤ now_action env + session_timeout)%Z →
  validate_session (out_store (authenticate hash_password s username password env))
    (li_session_token info) now
  = mkOutcome (out_store (authenticate hash_password s username password env))
      (Some (mkSessionInfo (li_user_id info) (li_username info) (li_email info)
               (li_role info) (li_permissions info)))
      [].
Proof.
  intros Hcons Hinfo Htok Hnow. unfold authenticate in *.
  destruct (select_user username (users s)) as [u|] eqn:Hsel; [|discriminate].
  destruct (is_locked (now_lock_check env) u); [discriminate|].
  destruct (negb (u_is_active u)) eqn:Hact; [discriminate|].
  destruct (negb (String.eqb _ (u_password_hash u))); [discriminate|].
  destruct (existsb _ (sessions s)) eqn:Ex; [discriminate|].
  cbn [out_value out_store] in *. injection Hinfo as <-.
  cbn [li_session_token li_user_id li_username li_email li_role li_permissions] in *.
  apply select_user_elem in Hsel as [Hin _].
  destruct Hcons as (Hids & _).
  unfold validate_session. apply String.eqb_neq in Htok. rewrite Htok.
  unfold select_session. cbn [users sessions].
  rewrite List.filter_app.
  rewrite (filter_none _ (sessions s)).
  2:{ intros se Hse. pose proof (existsb_false_elem _ _ Ex se Hse) as E.
      cbn in E. by rewrite E. }
  cbn [app List.filter s_session_token s_is_active].
  rewrite String.eqb_refl. cbn [andb flat_map s_user_id].
  rewrite filter_update_users_id by done.
  rewrite (filter_id_unique _ u Hids Hin).
  cbn [update_users map]. rewrite Z.eqb_refl. cbn [app head s_expires_at].
  assert (E : Z.ltb (now_action env + session_timeout) now = false)
    by (apply Z.ltb_ge; lia).
  rewrite E. cbn [set_success u_is_active]. rewrite Hact. reflexivity.
Qed.

(** ** What is switched off stays off *)

Lemma users_grow_same (s : Store) (us : list User) (g : User → User) :
  us = map g (users s) →
  (∀ u, account_key (g u) = account_key u ∧ (u_is_active (g u) = true → u_is_active u = true)) →
  ∃ g new, us = (map g (users s) ++ new)%list
    ∧ (∀ u, account_key (g u) = account_key u
            ∧ (u_is_active (g u) = true → u_is_active u = true))
    ∧ (∀ n, n ∈ new → u_id n ∉ map u_id (users s)).
Proof.
  intros -> Hg. exists g, []. rewrite app_nil_r. repeat split; try apply Hg.
  intros n Hn. by apply elem_of_nil in Hn.
Qed.

Lemma sessions_grow_same (s : Store) (ss : list Session) (f : Session → Session) :
  ss = map f (sessions s) →
  (∀ se, f se = se ∨ f se = session_off se) →
  ∃ f new, ss = (map f (sessions s) ++ new)%list
    ∧ (∀ se, f se = se ∨ f se = session_off se)
    ∧ (∀ n, n ∈ new →
         (s_session_token n ∉ map s_session_token (sessions s))
         ∧ ∃ u, u ∈ users s ∧ u_id u = s_user_id n ∧ u_is_active u = true).
Proof.
  intros -> Hf. exists f, []. rewrite app_nil_r. repeat split; try apply Hf.
  all: intros; by match goal with H : _ ∈ [] |- _ => apply elem_of_nil in H end.
Qed.

Lemma update_users_grow (s : Store) (user_id : Z) (f : User → User) :
  (∀ u, account_key (f u) = account_key u
        ∧ (u_is_active (f u) = true → u_is_active u = true)) →
  ∃ g new, update_users user_id f (users s) = (map g (users s) ++ new)%list
    ∧ (∀ u, account_key (g u) = account_key u
            ∧ (u_is_active (g u) = true → u_is_active u = true))
    ∧ (∀ n, n ∈ new → u_id n ∉ map u_id (users s)).
Proof.
  intros Hf. eapply users_grow_same; [reflexivity|]. intros u. cbn.
  destruct (Z.eqb (u_id u) user_id); [apply Hf|done].
Qed.

Lemma store_grows_refl (s : Store) : store_grows s s.
Proof.
  split.
  - apply (users_grow_same s _ id); [by rewrite map_id|done].
  - apply (sessions_grow_same s _ id); [by rewrite map_id|]. by left.
Qed.

(** Every call leaves a store that grows from the one it found. *)
Lemma step_grows (s : Store) (op : Op) : store_grows s (step hash_password s op).
Proof.
  assert (Hid_u : ∃ g new, users s = (map g (users s) ++ new)%list
            ∧ (∀ u, account_key (g u) = account_key u
                    ∧ (u_is_active (g u) = true → u_is_active u = true))
            ∧ (∀ n, n ∈ new → u_id n ∉ map u_id (users s)))
    by apply (store_grows_refl s).
  assert (Hid_s : ∃ f new, sessions s = (map f (sessions s) ++ new)%list
            ∧ (∀ se, f se = se ∨ f se = session_off se)
            ∧ (∀ n, n ∈ new →
                 (s_session_token n ∉ map s_session_token (sessions s))
                 ∧ ∃ u, u ∈ users s ∧ u_id u = s_user_id n ∧ u_is_active u = true))
    by apply (store_grows_refl s).
  assert (Hnewu : ∀ row : User, u_id row = next_rowid (map u_id (users s)) →
            ∃ g new, (users s ++ [row])%list = (map g (users s) ++ new)%list
              ∧ (∀ u, account_key (g u) = account_key u
                      ∧ (u_is_active (g u) = true → u_is_active u = true))
              ∧ (∀ n, n ∈ new → u_id n ∉ map u_id (users s))).
  { intros row Hrow. exists id, [row]. rewrite map_id. repeat split; try done.
    intros n Hn. apply list_elem_of_singleton in Hn as ->. rewrite Hrow.
    apply next_rowid_fresh. }
  assert (Hoff_t : ∀ t, ∃ f new,
            sessions_off_by_token t (sessions s) = (map f (sessions s) ++ new)%list
            ∧ (∀ se, f se = se ∨ f se = session_off se)
            ∧ (∀ n, n ∈ new →
                 (s_session_token n ∉ map s_session_token (sessions s))
                 ∧ ∃ u, u ∈ users s ∧ u_id u = s_user_id n ∧ u_is_active u = true)).
  { intros t. eapply sessions_grow_same; [reflexivity|]. intros se. cbn.
    destruct (String.eqb (s_session_token se) t); [by right|by left]. }
  destruct op; cbn [step].
  - unfold create_default_admin.
    destruct (Z.eqb _ 0); [|apply store_grows_refl].
    destruct (user_preferences s !! _); [apply store_grows_refl|].
    cbn. split; [by apply Hnewu|exact Hid_s].
  - unfold create_user.
    destruct (existsb _ (users s)); [apply store_grows_refl|].
    destruct (user_preferences s !! _); [apply store_grows_refl|].
    cbn. split; [by apply Hnewu|exact Hid_s].
  - unfold authenticate.
    destruct (select_user username (users s)) as [u|] eqn:Hsel;
      [|apply store_grows_refl].
    destruct (is_locked (now_lock_check env) u); [apply store_grows_refl|].
    destruct (negb (u_is_active u)) eqn:Hact; [apply store_grows_refl|].
    destruct (negb (String.eqb _ (u_password_hash u))).
    + split; [|exact Hid_s]. cbn. by apply update_users_grow.
    + destruct (existsb _ (sessions s)) eqn:Ex; [apply store_grows_refl|].
      split; cbn.
      * by apply update_users_grow.
      * eexists id, [_]. rewrite map_id. split; [reflexivity|].
        split; [by left|]. intros n Hn.
        apply list_elem_of_singleton in Hn as ->. cbn. split.
        -- intros Hin. apply list_elem_of_fmap in Hin as (se & Heq & Hse).
           pose proof (existsb_false_elem _ _ Ex se Hse) as E. cbn in E.
           apply String.eqb_neq in E. by apply E.
        -- exists u. apply select_user_elem in Hsel as [Hin _].
           apply negb_false_iff in Hact. done.
  - unfold validate_session.
    destruct (String.eqb session_token EmptyString); [apply store_grows_refl|].
    destruct (head _) as [[se u]|]; [|apply store_grows_refl].
    destruct (Z.ltb _ now).
    + split; [exact Hid_u|apply Hoff_t].
    + destruct (negb _); apply store_grows_refl.
  - split; [exact Hid_u|apply Hoff_t].
  - unfold update_user_role.
    destruct (sqlite_integer user_id); [|apply store_grows_refl].
    split; [|exact Hid_s]. cbn. by apply update_users_grow.
  - unfold deactivate_user.
    destruct (sqlite_integer user_id); [|apply store_grows_refl].
    split; cbn.
    + by apply update_users_grow.
    + eapply sessions_grow_same; [reflexivity|]. intros se. cbn.
      destruct (Z.eqb (s_user_id se) user_id); [by right|by left].
  - unfold log_query. destruct (Z.eqb user_id 999); [apply store_grows_refl|].
    destruct (_ && _); [|apply store_grows_refl].
    split; [exact Hid_u|exact Hid_s].
Qed.

(** X9. Whenever [validate_session] returns an account, the store holds a
    session with that token which is flagged active and has not expired, its
    owner is in the store and is active, the role returned is the owner's
    current role with the permissions of that role, and the store is left as
    it was. *)
Theorem validate_session_sound (s : Store) (session_token : string) (now : Z)
    (info : SessionInfo) :
  out_value (validate_session s session_token now) = Some info →
  out_store (validate_session s session_token now) = s
  ∧ session_token ≠ EmptyString
  ∧ ∃ se u, se ∈ sessions s ∧ u ∈ users s
      ∧ s_session_token se = session_token
      ∧ s_is_active se = true
      ∧ (now ≤ s_expires_at se)%Z
      ∧ u_id u = s_user_id se
      ∧ u_is_active u = true
      ∧ info = mkSessionInfo (s_user_id se) (u_username u) (u_email u) (u_role u)
                 (role_permissions (u_role u)).
Proof.
  unfold validate_session.
  destruct (String.eqb_spec session_token EmptyString) as [|Hne]; [discriminate|].
  destruct (select_session session_token s) as [|[se u] l] eqn:E; [discriminate|].
  assert (Hin : (se, u) ∈ select_session session_token s)
    by (rewrite E; apply list_elem_of_here).
  apply select_session_elem in Hin as (Hse & Ht & Ha & Hu & Hid).
  cbn [head]. destruct (Z.ltb_spec (s_expires_at se) now); [discriminate|].
  destruct (u_is_active u) eqn:Hact; [|discriminate].
  cbn. intros [= <-]. split; [reflexivity|]. split; [exact Hne|].
  exists se, u. done.
Qed.

Lemma authenticate_success_active (s : Store) (username password : string)
    (env : AuthEnv) (info : LoginInfo) :
  out_value (authenticate hash_password s username password env) = Some info →
  ∃ u, u ∈ users s ∧ li_user_id info = u_id u ∧ u_is_active u = true.
Proof.
  unfold authenticate.
  destruct (select_user username (users s)) as [u|] eqn:Hsel; [|discriminate].
  destruct (is_locked (now_lock_check env) u); [discriminate|].
  destruct (u_is_active u) eqn:Hact; [|discriminate].
  destruct (negb (String.eqb _ (u_password_hash u))); [discriminate|].
  destruct (existsb _ (sessions s)); [discriminate|].
  cbn. intros [= <-]. exists u. apply select_user_elem in Hsel as [Hin _]. done.
Qed.

Lemma grows_keeps_revoked (s s' : Store) (session_token : string) :
  store_grows s s' →
  session_token ∈ map s_session_token (sessions s) →
  (∀ se, se ∈ sessions s → s_session_token se = session_token →
         s_is_active se = false) →
  session_token ∈ map s_session_token (sessions s')
  ∧ (∀ se, se ∈ sessions s' → s_session_token se = session_token →
           s_is_active se = false).
Proof.
  intros [_ (f & new & Hs' & Hf & Hnew)] Hin Hoff.
  assert (Hft : ∀ se, s_session_token (f se) = s_session_token se)
    by (intros se; destruct (Hf se) as [-> | ->]; reflexivity).
  rewrite Hs'. split.
  - rewrite map_app. apply elem_of_app. left. rewrite map_map.
    apply list_elem_of_fmap in Hin as (se & -> & Hse).
    apply list_elem_of_fmap. exists se. by rewrite Hft.
  - intros se' Hse' Ht. apply elem_of_app in Hse' as [Hse'|Hse'].
    + apply list_elem_of_fmap in Hse' as (se & -> & Hse).
      rewrite Hft in Ht. destruct (Hf se) as [-> | ->]; [by apply Hoff|done].
    + destruct (Hnew se' Hse') as [Hfresh _]. rewrite Ht in Hfresh. done.
Qed.

(** X10. A token that has been issued and then logged out never validates again,
    whatever is called afterwards: no call switches a session back on, and
    [authenticate] does not issue a token that a session already carries. *)
Theorem logged_out_token_never_validates (s : Store) (session_token : string)
    (ops : list Op) (now : Z) :
  session_token ∈ map s_session_token (sessions s) →
  validate_session (fold_left (step hash_password) ops (logout s session_token))
    session_token now
  = mkOutcome (fold_left (step hash_password) ops (logout s session_token)) None [].
Proof.
  intros Hin. apply validate_session_no_row, select_session_none.
  assert (Hinv : session_token
                   ∈ map s_session_token
                       (sessions (fold_left (step hash_password) ops
                                    (logout s session_token)))
                 ∧ (∀ se, se ∈ sessions (fold_left (step hash_password) ops
                                            (logout s session_token)) →
                          s_session_token se = session_token →
                          s_is_active se = false)).
  { induction ops as [|op ops IH] using rev_ind.
    - cbn [fold_left]. split.
      + cbn. by rewrite map_sessions_off_by_token.
      + pose proof (sessions_off_by_token_inactive session_token (sessions s)) as H.
        rewrite Forall_forall in H. exact H.
    - rewrite fold_left_app. cbn [fold_left]. destruct IH as [IH1 IH2].
      eapply grows_keeps_revoked; [apply step_grows|exact IH1|exact IH2]. }
  exact (proj2 Hinv).
Qed.

Lemma grows_keeps_deactivated (s s' : Store) (user_id : Z) :
  store_grows s s' →
  user_id ∈ map u_id (users s) →
  (∀ u, u ∈ users s → u_id u = user_id → u_is_active u = false) →
  (∀ se, se ∈ sessions s → s_user_id se = user_id → s_is_active se = false) →
  user_id ∈ map u_id (users s')
  ∧ (∀ u, u ∈ users s' → u_id u = user_id → u_is_active u = false)
  ∧ (∀ se, se ∈ sessions s' → s_user_id se = user_id → s_is_active se = false).
Proof.
  intros [(g & newu & Hu' & Hg & Hnewu) (f & news & Hs' & Hf & Hnews)] Hin Hu Hs.
  rewrite Hu', Hs'. split; [|split].
  - rewrite map_app. apply elem_of_app. left. rewrite map_map.
    apply list_elem_of_fmap in Hin as (u & -> & Hin).
    apply list_elem_of_fmap. exists u. split; [|exact Hin].
    destruct (Hg u) as [Hk _]. unfold account_key in Hk. congruence.
  - intros u' Hu'in Hid. apply elem_of_app in Hu'in as [Hu'in|Hu'in].
    + apply list_elem_of_fmap in Hu'in as (u & -> & Huin).
      destruct (Hg u) as [Hk Hgact].
      assert (Hgid : u_id (g u) = u_id u)
        by (unfold account_key in Hk; congruence).
      rewrite Hgid in Hid.
      destruct (u_is_active (g u)) eqn:E; [|reflexivity].
      rewrite (Hu u Huin Hid) in Hgact. by specialize (Hgact eq_refl).
    + exfalso. apply (Hnewu u' Hu'in). by rewrite Hid.
  - intros se' Hse' Hid. apply elem_of_app in Hse' as [Hse'|Hse'].
    + apply list_elem_of_fmap in Hse' as (se & -> & Hse).
      destruct (Hf se) as [E|E]; rewrite E in Hid |- *; [by apply Hs|done].
    + destruct (Hnews se' Hse') as [_ (u & Huin & Huid & Hact)].
      rewrite (Hu u Huin) in Hact; [discriminate Hact|congruence].
Qed.

(** X11. Deactivation is final.  Once [deactivate_user] has returned [True]
    for the id of an account, then whatever is called afterwards,
    [authenticate] never again returns that account and [validate_session]
    never again returns it for any token. *)
Theorem deactivation_is_final (s : Store) (user_id : Z) (ops : list Op) :
  user_id ∈ map u_id (users s) →
  out_value (deactivate_user s user_id) = true →
  (∀ username password env info,
     out_value (authenticate hash_password
                  (fold_left (step hash_password) ops
                     (out_store (deactivate_user s user_id)))
                  username password env) = Some info →
     li_user_id info ≠ user_id)
  ∧ (∀ session_token now info,
       out_value (validate_session
                    (fold_left (step hash_password) ops
                       (out_store (deactivate_user s user_id)))
                    session_token now) = Some info →
       si_user_id info ≠ user_id).
Proof.
  intros Hin Hok. rewrite (deactivate_user_done _ _ Hok).
  set (s' := fold_left (step hash_password) ops
               (mkStore (update_users user_id user_off (users s))
                  (sessions_off_by_user user_id (sessions s))
                  (query_history s) (user_preferences s))).
  assert (Hinv : user_id ∈ map u_id (users s')
                 ∧ (∀ u, u ∈ users s' → u_id u = user_id → u_is_active u = false)
                 ∧ (∀ se, se ∈ sessions s' → s_user_id se = user_id →
                          s_is_active se = false)).
  { subst s'. induction ops as [|op ops IH] using rev_ind.
    - cbn [fold_left users sessions]. split; [|split].
      + by rewrite map_update_users.
      + intros u Hu Hid. unfold update_users in Hu.
        apply list_elem_of_fmap in Hu as (v & -> & Hv).
        destruct (Z.eqb_spec (u_id v) user_id) as [E|E]; [reflexivity|].
        by destruct E.
      + intros se Hse Hid. unfold sessions_off_by_user in Hse.
        apply list_elem_of_fmap in Hse as (v & -> & Hv).
        destruct (Z.eqb_spec (s_user_id v) user_id) as [E|E]; [reflexivity|].
        by destruct E.
    - rewrite fold_left_app. cbn [fold_left]. destruct IH as (I1 & I2 & I3).
      eapply grows_keeps_deactivated; [apply step_grows|done..]. }
  destruct Hinv as (_ & Husers & Hsessions). split.
  - intros username password env info Hinfo Hid.
    apply authenticate_success_active in Hinfo as (u & Hu & Hidu & Hact).
    rewrite (Husers u Hu) in Hact; [discriminate Hact|congruence].
  - intros session_token now info Hinfo Hid.
    apply validate_session_sound in Hinfo
      as (_ & _ & se & u & Hse & _ & _ & Hact & _ & _ & _ & ->).
    cbn in Hid. rewrite (Hsessions se Hse Hid) in Hact. discriminate Hact.
Qed.

(** ** Roles, and ids that no account has *)

Lemma select_session_update_users (s : Store) (user_id : Z) (f : User → User)
    (session_token : string) :
  (∀ u, u_id (f u) = u_id u) →
  select_session session_token
    (mkStore (update_users user_id f (users s)) (sessions s) (query_history s)
             (user_preferences s))
  = map (λ p, (p.1, if Z.eqb (u_id p.2) user_id then f p.2 else p.2))
        (select_session session_token s).
Proof.
  intros Hf. unfold select_session. cbn [users sessions].
  induction (List.filter _ (sessions s)) as [|se l IH]; [reflexivity|].
  cbn [flat_map]. rewrite map_app, IH. f_equal.
  rewrite filter_update_users_id by exact Hf.
  unfold update_users. by rewrite !map_map.
Qed.

Lemma update_user_role_done (s : Store) (user_id : Z) (new_role : string) :
  out_value (update_user_role s user_id new_role) = true →
  out_store (update_user_role s user_id new_role)
  = mkStore (update_users user_id (set_role new_role) (users s)) (sessions s)
            (query_history s) (user_preferences s).
Proof.
  unfold update_user_role. by destruct (sqlite_integer user_id).
Qed.

(** X12. A change of role reaches the sessions that are open: if a token
    validates for an account, then after [update_user_role] has returned
    [True] for that account the same token validates with the new role and
    the permissions of the new role, and with nothing else changed in the
    answer. *)
Theorem role_change_reaches_open_sessions (s : Store) (new_role : string)
    (session_token : string) (now : Z) (info : SessionInfo) :
  out_value (validate_session s session_token now) = Some info →
  out_value (update_user_role s (si_user_id info) new_role) = true →
  validate_session (out_store (update_user_role s (si_user_id info) new_role))
    session_token now
  = mkOutcome (out_store (update_user_role s (si_user_id info) new_role))
      (Some (mkSessionInfo (si_user_id info) (si_username info) (si_email info)
               new_role (role_permissions new_role)))
      [].
Proof.
  intros Hinfo Hok. rewrite (update_user_role_done _ _ _ Hok).
  unfold validate_session in *.
  destruct (String.eqb session_token EmptyString); [discriminate|].
  rewrite select_session_update_users by done.
  destruct (select_session session_token s) as [|[se u] l] eqn:E; [discriminate|].
  assert (Hin : (se, u) ∈ select_session session_token s)
    by (rewrite E; apply list_elem_of_here).
  apply select_session_elem in Hin as (_ & _ & _ & _ & Hid).
  cbn [head map fst snd] in *.
  destruct (Z.ltb (s_expires_at se) now); [discriminate|].
  destruct (u_is_active u) eqn:Hact; [|discriminate].
  cbn in Hinfo. injection Hinfo as <-. cbn [si_user_id si_username si_email].
  rewrite Hid, Z.eqb_refl. cbn. rewrite Hact. reflexivity.
Qed.

Lemma update_users_absent (user_id : Z) (f : User → User) (us : list User) :
  user_id ∉ map u_id us → update_users user_id f us = us.
Proof.
  intros Hout. unfold update_users. rewrite <- (map_id us) at 2.
  apply map_ext_in. intros u Hu.
  destruct (Z.eqb_spec (u_id u) user_id) as [E|E]; [|reflexivity].
  exfalso. apply Hout. rewrite <- E. apply list_elem_of_fmap_2.
  by apply list_elem_of_In.
Qed.

(** X13. [update_user_role] and [deactivate_user] do not check that the id
    exists: for an id that fits a SQLite INTEGER and that no account of a
    consistent store has, they return [True] and leave the store as it was.
    For an id that does not fit, they return [False], show the error of the
    failed binding and leave the store as it was. *)
Theorem unknown_user_id_reported_as_success (s : Store) (user_id : Z)
    (new_role : string) :
  store_consistent s →
  user_id ∉ map u_id (users s) →
  (sqlite_integer user_id = true →
   update_user_role s user_id new_role = mkOutcome s true []
   ∧ deactivate_user s user_id = mkOutcome s true [])
  ∧ (sqlite_integer user_id = false →
     update_user_role s user_id new_role = mkOutcome s false [MSG_ROLE_OVERFLOW]
     ∧ deactivate_user s user_id = mkOutcome s false [MSG_DEACTIVATE_OVERFLOW]).
Proof.
  intros (_ & _ & _ & _ & _ & Hown & _) Hout.
  unfold update_user_role, deactivate_user, with_users.
  split; intros ->; [|done].
  rewrite !(update_users_absent user_id) by exact Hout.
  assert (Hss : sessions_off_by_user user_id (sessions s) = sessions s).
  { unfold sessions_off_by_user. rewrite <- (map_id (sessions s)) at 2.
    apply map_ext_in. intros se Hse. apply list_elem_of_In in Hse.
    destruct (Z.eqb_spec (s_user_id se) user_id) as [E|E]; [|reflexivity].
    exfalso. apply Hout. rewrite <- E. by apply Hown. }
  rewrite Hss. by destruct s.
Qed.

(** ** What [authenticate] leaves alone *)

(** X14. [authenticate] touches one account.  It never writes to [query_history]
    or [user_preferences]; it leaves [sessions] as it is or appends one row;
    every row of [users] whose id is not that of the selected account stays,
    in its place, as it was; and for a login name that selects nobody the
    whole store stays as it was. *)
Theorem authenticate_touches_one_account (s : Store) (username password : string)
    (env : AuthEnv) :
  query_history (out_store (authenticate hash_password s username password env))
  = query_history s
  ∧ user_preferences (out_store (authenticate hash_password s username password env))
    = user_preferences s
  ∧ (sessions (out_store (authenticate hash_password s username password env))
     = sessions s
     ∨ ∃ row, sessions (out_store (authenticate hash_password s username
                                     password env))
              = (sessions s ++ [row])%list)
  ∧ (∀ u (i : nat) v,
       select_user username (users s) = Some u →
       users s !! i = Some v → u_id v ≠ u_id u →
       users (out_store (authenticate hash_password s username password env)) !! i
       = Some v)
  ∧ (select_user username (users s) = None →
     out_store (authenticate hash_password s username password env) = s).
Proof.
  assert (Hkeep : ∀ (u : User) (f : User → User) (i : nat) (v : User),
            users s !! i = Some v → u_id v ≠ u_id u →
            update_users (u_id u) f (users s) !! i = Some v).
  { intros u f i v Hi Hne. unfold update_users.
    change (map ?g (users s)) with (g <$> users s).
    rewrite list_lookup_fmap, Hi. cbn.
    apply Z.eqb_neq in Hne. by rewrite Hne. }
  assert (Hstay : ∀ (u : User) (i : nat) (v : User),
            users s !! i = Some v → u_id v ≠ u_id u → users s !! i = Some v)
    by (intros; assumption).
  unfold authenticate.
  destruct (select_user username (users s)) as [u|] eqn:Hsel.
  2:{ split; [done|]. split; [done|]. split; [by left|].
      split; [discriminate|done]. }
  destruct (is_locked (now_lock_check env) u).
  { split; [done|]. split; [done|]. split; [by left|].
    split; [|discriminate]. intros ? ? ? [= <-]. apply Hstay. }
  destruct (negb (u_is_active u)).
  { split; [done|]. split; [done|]. split; [by left|].
    split; [|discriminate]. intros ? ? ? [= <-]. apply Hstay. }
  destruct (negb (String.eqb _ (u_password_hash u))).
  { split; [done|]. split; [done|]. split; [by left|].
    split; [|discriminate]. intros ? ? ? [= <-]. apply Hkeep. }
  destruct (existsb _ (sessions s)).
  { split; [done|]. split; [done|]. split; [by left|].
    split; [|discriminate]. intros ? ? ? [= <-]. apply Hstay. }
  split; [done|]. split; [done|]. split; [right; by eexists|].
  split; [|discriminate]. intros ? ? ? [= <-]. apply Hkeep.
Qed.

(** X15. A lockout that has run out leaves the counter where it was.  So in a
    store left by any sequence of calls, an active account whose lockout
    expiry has passed is locked again, for 30 minutes, by the first wrong
    password. *)
Theorem lapsed_lockout_relocks_at_first_failure (ops : list Op)
    (username password : string) (env : AuthEnv) (u : User) (t : Z) :
  select_user username (users (run hash_password ops)) = Some u →
  u_locked_until u = Some t →
  (t ≤ now_lock_check env)%Z →
  u_is_active u = true →
  hash_password password (u_salt u) ≠ u_password_hash u →
  (5 ≤ u_failed_login_attempts u)%Z
  ∧ select_user username
      (users (out_store (authenticate hash_password (run hash_password ops)
                           username password env)))
    = Some (set_failure (u_failed_login_attempts u + 1)
              (Some (now_action env + timedelta_minutes 30)) u).
Proof.
  intros Hsel Hlock Ht Hact Hw.
  assert (H5 : (5 ≤ u_failed_login_attempts u)%Z).
  { pose proof (run_lockout_consistent hash_password ops) as Hinv.
    rewrite Forall_forall in Hinv.
    apply select_user_elem in Hsel as Hin. destruct Hin as [Hin _].
    specialize (Hinv u Hin). unfold lockout_consistent in Hinv.
    destruct (Z.lt_ge_cases (u_failed_login_attempts u) 5) as [Hlt|Hge];
      [|exact Hge].
    rewrite (Hinv Hlt) in Hlock. discriminate Hlock. }
  split; [exact H5|].
  assert (Hl : is_locked (now_lock_check env) u = false).
  { unfold is_locked. rewrite Hlock. apply Z.ltb_ge. exact Ht. }
  rewrite (wrong_password_step hash_password _ _ _ _ u Hsel Hl Hact Hw).
  destruct (Z.leb_spec 5 (u_failed_login_attempts u + 1)); [reflexivity|lia].
Qed.

(** ** The built-in administrator *)

Lemma init_on_new_database (cenv : CreateEnv) :
  users (step hash_password empty_store (OpInit cenv))
  = [mkUser 1 "admin" "admin@texttosql.com"
       (hash_password "admin123" (new_salt cenv)) (new_salt cenv)
       UserRole.ADMIN true (created_timestamp cenv) None 0 None].
Proof. reflexivity. Qed.

(** X16. The first [AuthSystem()] on a new database creates the account [admin]
    with the password [admin123], and since no call changes a password, that
    pair keeps working: after any sequence of calls the login name [admin]
    still selects account 1, its stored hash is still that of [admin123], and
    a login with that pair succeeds whenever the account is active and not
    locked and the token drawn is new. *)
Theorem default_admin_password_keeps_working (cenv : CreateEnv) (ops : list Op)
    (env : AuthEnv) :
  ∃ u, select_user "admin" (users (run hash_password (OpInit cenv :: ops))) = Some u
    ∧ u_id u = 1
    ∧ u_password_hash u = hash_password "admin123" (u_salt u)
    ∧ (u_is_active u = true →
       is_locked (now_lock_check env) u = false →
       (∀ se, se ∈ sessions (run hash_password (OpInit cenv :: ops)) →
              s_session_token se ≠ new_session_token env) →
       out_value (authenticate hash_password
                    (run hash_password (OpInit cenv :: ops))
                    "admin" "admin123" env)
       = Some (mkLoginInfo 1 "admin" "admin@texttosql.com" (u_role u)
                 (new_session_token env) (role_permissions (u_role u)))).
Proof.
  unfold run. cbn [fold_left].
  set (s0 := step hash_password empty_store (OpInit cenv)).
  set (s := fold_left (step hash_password) ops s0).
  destruct (rows_kept_by_every_call s0 ops) as [[k Hk] _]. fold s in Hk.
  subst s0. rewrite init_on_new_database in Hk. cbn [map app] in Hk.
  destruct (users s) as [|u rest] eqn:Hus; [discriminate Hk|].
  cbn [map] in Hk.
  injection Hk as Hid Hname Hmail Hhash Hsalt _.
  assert (Hsel : select_user "admin" (u :: rest) = Some u).
  { unfold select_user. cbn [List.find]. rewrite Hname. reflexivity. }
  exists u. split; [exact Hsel|]. split; [exact Hid|].
  split; [by rewrite Hhash, Hsalt|].
  intros Hact Hl Hfresh. unfold authenticate. rewrite Hus, Hsel, Hl, Hact.
  cbn [negb]. rewrite Hhash, Hsalt, String.eqb_refl. cbn [negb].
  destruct (existsb _ (sessions s)) eqn:Ex.
  - apply existsb_exists in Ex as (se & Hse & Heq).
    apply String.eqb_eq in Heq. apply list_elem_of_In in Hse.
    by destruct (Hfresh se Hse).
  - cbn. by rewrite Hid, Hname, Hmail.
Qed.

End StoreProperties.

(** ** Listings *)

Lemma insert_desc_perm {A : Type} (key : A → Z) (x : A) (l : list A) :
  insert_desc key x l ≡ₚ x :: l.
Proof.
  induction l as [|y l IH]; [reflexivity|]. cbn [insert_desc].
  destruct (Z.ltb (key y) (key x)); [reflexivity|].
  rewrite IH. apply Permutation_swap.
Qed.

Lemma sort_desc_perm {A : Type} (key : A → Z) (l : list A) :
  sort_desc key l ≡ₚ l.
Proof.
  unfold sort_desc. induction l as [|x l IH]; [reflexivity|].
  cbn [foldr]. rewrite insert_desc_perm. by rewrite IH.
Qed.

Lemma sql_limit_sublist {A : Type} (limit : Z) (l : list A) (x : A) :
  x ∈ sql_limit limit l → x ∈ l.
Proof.
  unfold sql_limit. destruct (Z.ltb limit 0); [done|].
  intros Hx. apply elem_of_take in Hx as (i & Hi & _).
  by apply list_elem_of_lookup_2 in Hi.
Qed.

Lemma history_of_elem (user_id : Z) (qs : list QueryLogEntry) (q : QueryLogEntry) :
  q ∈ history_of user_id qs ↔ q ∈ qs ∧ q_user_id q = user_id.
Proof.
  unfold history_of. rewrite !list_elem_of_In, filter_In, Z.eqb_eq. done.
Qed.

Lemma query_history_never_demo_user (hash_password : string → string → string)
    (ops : list Op) (q : QueryLogEntry) :
  q ∈ query_history (run hash_password ops) → q_user_id q ≠ 999.
Proof.
  unfold run. induction ops as [|op ops IH] using rev_ind.
  - intros Hq. by apply elem_of_nil in Hq.
  - rewrite fold_left_app. cbn [fold_left].
    set (s := fold_left (step hash_password) ops empty_store) in *.
    destruct op; cbn [step]; try exact IH.
    + unfold create_default_admin. destruct (Z.eqb _ 0); [|exact IH].
      destruct (user_preferences s !! _); exact IH.
    + unfold create_user. destruct (existsb _ (users s)); [exact IH|].
      destruct (user_preferences s !! _); exact IH.
    + unfold authenticate.
      destruct (select_user username (users s)) as [u|]; [|exact IH].
      destruct (is_locked (now_lock_check env) u); [exact IH|].
      destruct (negb (u_is_active u)); [exact IH|].
      destruct (negb (String.eqb _ (u_password_hash u))); [exact IH|].
      destruct (existsb _ (sessions s)); exact IH.
    + unfold validate_session.
      destruct (String.eqb session_token EmptyString); [exact IH|].
      destruct (head _) as [[se u]|]; [|exact IH].
      destruct (Z.ltb _ now); [exact IH|]. destruct (negb _); exact IH.
    + unfold update_user_role. destruct (sqlite_integer user_id); exact IH.
    + unfold deactivate_user. destruct (sqlite_integer user_id); exact IH.
    + unfold log_query. destruct (Z.eqb_spec user_id 999) as [|Hne]; [exact IH|].
      destruct (_ && _); [|exact IH].
      cbn [query_history]. intros Hq. apply elem_of_app in Hq as [Hq|Hq].
      * by apply IH.
      * by apply list_elem_of_singleton in Hq as ->.
Qed.

Section ListingProperties.

Variable hash_password : string → string → string.
Variable order_users : list User → list User.
Variable order_history : list QueryLogEntry → list QueryLogEntry.

(** What SQL guarantees of [ORDER BY]: the rows come out rearranged, none
    lost and none added. *)
Hypothesis order_users_perm : ∀ l, order_users l ≡ₚ l.
Hypothesis order_history_perm : ∀ l, order_history l ≡ₚ l.

(** X17. [get_user_query_history] raises exactly when the account id or the
    bound does not fit a SQLite INTEGER.  When it returns, it returns only
    queries logged for the account asked for, each built from a row of
    [query_history]; with a bound of 0 or more it returns at most that many,
    and with a negative bound it returns them all. *)
Theorem history_own_rows_within_limit (s : Store) (user_id limit : Z) :
  (get_user_query_history order_history s user_id limit = None
   ↔ sqlite_integer user_id = false ∨ sqlite_integer limit = false)
  ∧ (∀ entries,
       get_user_query_history order_history s user_id limit = Some entries →
       (∀ e, e ∈ entries →
             ∃ q, q ∈ query_history s ∧ q_user_id q = user_id
                  ∧ e = history_entry q)
       ∧ ((0 ≤ limit)%Z → (Z.of_nat (length entries) ≤ limit)%Z)
       ∧ ((limit < 0)%Z →
          length entries = length (history_of user_id (query_history s)))).
Proof.
  unfold get_user_query_history. split.
  - destruct (sqlite_integer user_id), (sqlite_integer limit); cbn [andb];
      split; try done; try (intros _; by left); try (intros _; by right);
      intros [H|H]; discriminate H.
  - intros entries. destruct (_ && _); [|discriminate]. intros [= <-].
    split; [|split].
    + intros e He. apply list_elem_of_fmap in He as (q & -> & Hq).
      apply sql_limit_sublist in Hq. rewrite order_history_perm in Hq.
      apply history_of_elem in Hq as [Hq Hid]. by exists q.
    + intros Hpos. rewrite length_map. unfold sql_limit.
      destruct (Z.ltb_spec limit 0); [lia|]. rewrite length_take. lia.
    + intros Hneg. rewrite length_map. unfold sql_limit.
      apply Z.ltb_lt in Hneg as ->. by rewrite order_history_perm.
Qed.

(** X18. Queries made under account id 999 leave no trace: in the store left by
    any sequence of calls, the history of that id is empty for every bound
    that fits a SQLite INTEGER; for any other bound the call raises. *)
Theorem demo_user_history_always_empty (ops : list Op) (limit : Z) :
  get_user_query_history order_history (run hash_password ops) 999 limit
  = if sqlite_integer limit then Some [] else None.
Proof.
  unfold get_user_query_history.
  change (sqlite_integer 999) with true. cbn [andb].
  destruct (sqlite_integer limit); [|reflexivity].
  assert (Hnone : history_of 999 (query_history (run hash_password ops)) = []).
  { apply filter_none. intros q Hq. apply Z.eqb_neq.
    by apply (query_history_never_demo_user hash_password ops). }
  rewrite Hnone.
  assert (Hnil : order_history [] = [])
    by (apply Permutation_nil_r; apply order_history_perm).
  rewrite Hnil. unfold sql_limit. destruct (Z.ltb limit 0); [reflexivity|].
  by rewrite take_nil.
Qed.


(** X20. The listing of accounts never loses one: an account listed before a
    sequence of calls is listed after it, under the same id, username and
    e-mail address. *)
Theorem listing_keeps_accounts (s : Store) (ops : list Op) (e : UserSummary) :
  e ∈ get_all_users order_users s →
  ∃ e', e' ∈ get_all_users order_users (fold_left (step hash_password) ops s)
        ∧ us_id e' = us_id e ∧ us_username e' = us_username e
        ∧ us_email e' = us_email e.
Proof.
  unfold get_all_users. intros He.
  apply list_elem_of_fmap in He as (u & -> & Hu).
  rewrite order_users_perm in Hu.
  destruct (rows_kept_by_every_call hash_password s ops) as [[k Hk] _].
  assert (Hkey : account_key u
                 ∈ map account_key (users (fold_left (step hash_password) ops s))).
  { rewrite Hk. apply elem_of_app. left. by apply list_elem_of_fmap_2. }
  apply list_elem_of_fmap in Hkey as (u' & Heq & Hu').
  exists (user_summary u'). split.
  - apply list_elem_of_fmap_2. by rewrite order_users_perm.
  - unfold account_key in Heq. cbn. injection Heq as -> -> -> _ _. done.
Qed.

End ListingProperties.

(** ** The Streamlit session *)

Section SessionProperties.

Variable hash_password : string → string → string.

(** X21. Outside demo mode, [require_login] answers [True] only for a session
    that the store vouches for: the current user it leaves in the session
    state is an active account of the store, with the role the store holds
    for it now, and [require_permission] then answers by the permissions of
    that role. *)
Theorem require_login_sound (s : Store) (st : SessionState) (cenv : CreateEnv)
    (now : Z) (s' : Store) (st' : SessionState) :
  ss_is_demo_mode st = false →
  require_login hash_password s st cenv now = Some (s', st', true) →
  ∃ info u, ss_user_info st' = Some (SessionDict info)
    ∧ u ∈ users s'
    ∧ u_id u = si_user_id info
    ∧ u_is_active u = true
    ∧ si_role info = u_role u
    ∧ (∀ permission,
         require_permission st' permission
         = has_permission (role_permissions (u_role u)) permission).
Proof.
  intros Hdemo. unfold require_login, init_auth_session.
  assert (Hcore : ∀ s1 st1,
            ss_is_demo_mode st1 = false →
            (if ss_is_demo_mode st1 && bool_decide (is_Some (ss_user_info st1))
             then Some (s1, st1, true)
             else match ss_session_token st1 with
                  | Some session_token =>
                      if nonempty session_token then
                        match out_value (validate_session s1 session_token now) with
                        | Some user_info =>
                            Some (out_store (validate_session s1 session_token now),
                                  mkSessionState (ss_auth_system st1)
                                    (Some (SessionDict user_info))
                                    (ss_session_token st1) (ss_is_demo_mode st1),
                                  true)
                        | None =>
                            Some (out_store (validate_session s1 session_token now),
                                  mkSessionState (ss_auth_system st1) None None
                                    (ss_is_demo_mode st1),
                                  false)
                        end
                      else Some (s1, st1, false)
                  | None => Some (s1, st1, false)
                  end) = Some (s', st', true) →
            ∃ info u, ss_user_info st' = Some (SessionDict info)
              ∧ u ∈ users s' ∧ u_id u = si_user_id info ∧ u_is_active u = true
              ∧ si_role info = u_role u
              ∧ (∀ permission,
                   require_permission st' permission
                   = has_permission (role_permissions (u_role u)) permission)).
  { intros s1 st1 Hd. rewrite Hd. cbn [andb].
    destruct (ss_session_token st1) as [t|]; [|discriminate].
    destruct (nonempty t); [|discriminate].
    destruct (out_value (validate_session s1 t now)) as [info|] eqn:Hv;
      [|discriminate].
    intros [= <- <-].
    apply validate_session_sound in Hv
      as (-> & _ & se & u & _ & Hu & _ & _ & _ & Hid & Hact & ->).
    eexists _, u. split; [reflexivity|]. cbn. done. }
  destruct (ss_auth_system st).
  - by apply Hcore.
  - destruct (create_default_admin hash_password s cenv) as [s1|]; [|discriminate].
    by apply Hcore.
Qed.

(** X22. In demo mode [require_login] does not look at the store: a session state
    that holds a current user is accepted as it is, whatever has become of
    the session or of the account, and the permissions stay those recorded
    at login. *)
Theorem demo_mode_skips_validation (s : Store) (st : SessionState)
    (cenv : CreateEnv) (now : Z) (ui : UserInfo) :
  ss_auth_system st = true →
  ss_is_demo_mode st = true →
  ss_user_info st = Some ui →
  require_login hash_password s st cenv now = Some (s, st, true)
  ∧ (∀ session_token,
       require_login hash_password (logout s session_token) st cenv now
       = Some (logout s session_token, st, true))
  ∧ (∀ user_id,
       require_login hash_password (out_store (deactivate_user s user_id)) st
         cenv now
       = Some (out_store (deactivate_user s user_id), st, true))
  ∧ (∀ permission,
       require_permission st permission
       = has_permission (info_permissions ui) permission).
Proof.
  intros Hauth Hdemo Hui.
  assert (H : ∀ s0, require_login hash_password s0 st cenv now = Some (s0, st, true)).
  { intros s0. unfold require_login, init_auth_session.
    rewrite Hauth. cbv beta iota. rewrite Hdemo, Hui. reflexivity. }
  split; [apply H|]. split; [intros; apply H|]. split; [intros; apply H|].
  intros permission. unfold require_permission. by rewrite Hui.
Qed.

(** X23. Outside demo mode, when [require_login] has a token to check and
    answers [False], it forgets the current user and the token, and every
    permission is then refused.  This is what happens to the token of a
    session that has been logged out. *)
Theorem require_login_forgets_rejected_session (s : Store) (st : SessionState)
    (cenv : CreateEnv) (now : Z) (s' : Store) (st' : SessionState) :
  ss_is_demo_mode st = false →
  truthy (ss_session_token st) = true →
  require_login hash_password s st cenv now = Some (s', st', false) →
  ss_user_info st' = None
  ∧ ss_session_token st' = None
  ∧ (∀ permission, require_permission st' permission = false).
Proof.
  intros Hdemo Htok. unfold require_login, init_auth_session.
  destruct (ss_session_token st) as [t|] eqn:Ht; [|discriminate Htok].
  cbn [truthy] in Htok.
  destruct (ss_auth_system st).
  - cbv beta iota. rewrite Hdemo, Ht, Htok. cbn [andb].
    destruct (out_value (validate_session s t now)); [discriminate|].
    by intros [= <- <-].
  - destruct (create_default_admin hash_password s cenv) as [s1|]; [|discriminate].
    cbn [ss_is_demo_mode ss_session_token ss_user_info ss_auth_system].
    rewrite Hdemo, Htok. cbn [andb].
    destruct (out_value (validate_session s1 t now)); [discriminate|].
    by intros [= <- <-].
Qed.

(** X24. After a successful sign-in the application lets the user in: in a
    consistent store, outside demo mode, if the sign-in form gets an account
    from [authenticate], then [require_login], at any time up to the expiry
    of the session, answers [True], changes nothing in the store and keeps
    that account, with its role and permissions, as the current user. *)
Theorem sign_in_then_require_login (s : Store) (st : SessionState)
    (username password : string) (env : AuthEnv) (cenv : CreateEnv) (now : Z)
    (info : LoginInfo) :
  store_consistent s →
  ss_auth_system st = true →
  ss_is_demo_mode st = false →
  nonempty username = true →
  nonempty password = true →
  out_value (authenticate hash_password s username password env) = Some info →
  li_session_token info ≠ EmptyString →
  (now ≤ now_action env + session_timeout)%Z →
  require_login hash_password
    (submit_login hash_password s st username password env).1.1
    (submit_login hash_password s st username password env).1.2 cenv now
  = Some ((submit_login hash_password s st username password env).1.1,
          mkSessionState true
            (Some (SessionDict
                     (mkSessionInfo (li_user_id info) (li_username info)
                        (li_email info) (li_role info) (li_permissions info))))
            (Some (li_session_token info)) false,
          true).
Proof.
  intros Hcons Hauth Hdemo Hu Hp Hinfo Htok Hnow.
  pose proof (login_token_validates hash_password s username password env info now
                Hcons Hinfo Htok Hnow) as Hval.
  unfold submit_login. rewrite Hu, Hp, Hinfo. cbn [andb fst snd].
  unfold require_login, init_auth_session.
  cbn [ss_auth_system]. rewrite Hauth. cbv beta iota.
  cbn [ss_auth_system ss_is_demo_mode ss_session_token ss_user_info].
  rewrite Hdemo. cbn [andb].
  assert (Hne : nonempty (li_session_token info) = true).
  { unfold nonempty. apply String.eqb_neq in Htok. by rewrite Htok. }
  rewrite Hne, Hval. reflexivity.
Qed.

(** X25. The registration form gives the role picked in the select box only to a
    current user who holds [manage_users]; for anybody else, whatever is
    picked, an account that the form adds to the store has the role
    [guest]. *)
Theorem registration_without_manage_users_is_guest (s : Store) (st : SessionState)
    (username email password confirm_password selected : string)
    (cenv : CreateEnv) (u : User) :
  require_permission st Permission.MANAGE_USERS = false →
  u ∈ users (submit_registration hash_password s st username email password
               confirm_password selected cenv).1 →
  u ∈ users s ∨ (u_role u = UserRole.GUEST ∧ u_username u = username).
Proof.
  intros Hperm. unfold submit_registration, registration_role.
  rewrite Hperm, andb_false_r.
  destruct (_ && nonempty confirm_password); [|by left].
  destruct (negb (String.eqb password confirm_password)); [by left|].
  destruct (Z.ltb (py_len password) 6); [by left|].
  cbn [fst]. unfold create_user.
  destruct (existsb _ (users s)); [by left|].
  destruct (user_preferences s !! _); [by left|].
  cbn [out_store users]. intros Hu. apply elem_of_app in Hu as [Hu|Hu]; [by left|].
  apply list_elem_of_singleton in Hu as ->. by right.
Qed.

(** X26. The registration form writes nothing when a field is empty, when the
    two passwords differ or when the password has fewer than 6 characters;
    the store is then as it was. *)
Theorem registration_rejects_without_writing (s : Store) (st : SessionState)
    (username email password confirm_password selected : string)
    (cenv : CreateEnv) :
  username = EmptyString ∨ email = EmptyString ∨ password = EmptyString
  ∨ confirm_password = EmptyString ∨ password ≠ confirm_password
  ∨ (py_len password < 6)%Z →
  (submit_registration hash_password s st username email password
     confirm_password selected cenv).1 = s
  ∧ ∀ notice,
      notice ∈ (submit_registration hash_password s st username email password
                  confirm_password selected cenv).2 →
      notice ≠ NoticeSuccess MSG_ACCOUNT_CREATED.
Proof.
  intros Hbad. unfold submit_registration.
  destruct (nonempty username) eqn:E1; cbn [andb].
  2:{ split; [done|]. intros n Hn. by apply list_elem_of_singleton in Hn as ->. }
  destruct (nonempty email) eqn:E2; cbn [andb].
  2:{ split; [done|]. intros n Hn. by apply list_elem_of_singleton in Hn as ->. }
  destruct (nonempty password) eqn:E3; cbn [andb].
  2:{ split; [done|]. intros n Hn. by apply list_elem_of_singleton in Hn as ->. }
  destruct (nonempty confirm_password) eqn:E4.
  2:{ split; [done|]. intros n Hn. by apply list_elem_of_singleton in Hn as ->. }
  destruct (String.eqb_spec password confirm_password) as [Heq|Hne]; cbn [negb].
  2:{ split; [done|]. intros n Hn. by apply list_elem_of_singleton in Hn as ->. }
  destruct (Z.ltb_spec (py_len password) 6) as [Hlt|Hge].
  { split; [done|]. intros n Hn. by apply list_elem_of_singleton in Hn as ->. }
  exfalso. unfold nonempty in *.
  destruct Hbad as [->|[->|[->|[->|[Hd|Hs]]]]];
    try discriminate; [contradiction|lia].
Qed.

End SessionProperties.

(** * Further examples *)

Lemma admin_only_permissions_witness :
  Permission.MANAGE_USERS ∈ [Permission.MANAGE_USERS; Permission.DELETE_DATA;
                              Permission.MANAGE_SCHEMAS]
  ∧ has_permission (role_permissions UserRole.ADMIN) Permission.MANAGE_USERS = true
  ∧ has_permission (role_permissions UserRole.ANALYST) Permission.MANAGE_USERS
    ≠ true.
Proof.
  assert (Hin : Permission.MANAGE_USERS
                  ∈ [Permission.MANAGE_USERS; Permission.DELETE_DATA;
                     Permission.MANAGE_SCHEMAS]) by apply list_elem_of_here.
  split; [exact Hin|]. split.
  - exact (proj2 (admin_only_permissions UserRole.ADMIN Permission.MANAGE_USERS Hin)
             eq_refl).
  - intros H.
    pose proof (proj1 (admin_only_permissions UserRole.ANALYST
                         Permission.MANAGE_USERS Hin) H) as E.
    discriminate E.
Defined.

(** [bob] registers after [alice] and logs in with his e-mail address. *)
Lemma created_account_can_log_in_witness :
  out_value (create_user sample_hash sample_store_registered "bob" "bob@x.com"
               "pw123456" UserRole.ANALYST (mkCreateEnv "77aa" 20)) = true
  ∧ select_user "bob@x.com" (users sample_store_registered) = None
  ∧ out_value (authenticate sample_hash
                 (out_store (create_user sample_hash sample_store_registered "bob"
                               "bob@x.com" "pw123456" UserRole.ANALYST
                               (mkCreateEnv "77aa" 20)))
                 "bob@x.com" "pw123456" (sample_auth_env 30 "tb"))
    = Some (mkLoginInfo 2 "bob" "bob@x.com" UserRole.ANALYST "tb"
              (role_permissions UserRole.ANALYST)).
Proof.
  assert (Hfresh : ∀ se, se ∈ sessions sample_store_registered →
                         s_session_token se ≠ new_session_token (sample_auth_env 30 "tb")).
  { intros se Hse. change (se ∈ []) in Hse. by apply elem_of_nil in Hse. }
  split; [reflexivity|]. split; [reflexivity|].
  exact (created_account_can_log_in sample_hash sample_store_registered "bob"
           "bob@x.com" "pw123456" UserRole.ANALYST "bob@x.com"
           (mkCreateEnv "77aa" 20) (sample_auth_env 30 "tb")
           eq_refl (or_intror eq_refl) eq_refl Hfresh).
Defined.

(** The token that [alice] gets at time 10 validates at time 11. *)
Lemma login_token_validates_witness :
  out_value (authenticate sample_hash sample_store_registered "alice" "Secret1!"
               (sample_auth_env 10 "tok")) = Some sample_alice_login
  ∧ validate_session sample_store_logged_in "tok" 11
    = mkOutcome sample_store_logged_in (Some sample_alice_session) [].
Proof.
  assert (Hne : li_session_token sample_alice_login ≠ EmptyString) by discriminate.
  assert (Hnow : (11 ≤ now_action (sample_auth_env 10 "tok") + session_timeout)%Z)
    by discriminate.
  split; [reflexivity|].
  exact (login_token_validates sample_hash sample_store_registered "alice"
           "Secret1!" (sample_auth_env 10 "tok") sample_alice_login 11
           (run_store_consistent sample_hash sample_register) eq_refl Hne Hnow).
Defined.

Lemma validate_session_sound_witness :
  out_value (validate_session sample_store_logged_in "tok" 11)
  = Some sample_alice_session
  ∧ out_store (validate_session sample_store_logged_in "tok" 11)
    = sample_store_logged_in
  ∧ ∃ se u, se ∈ sessions sample_store_logged_in
      ∧ u ∈ users sample_store_logged_in
      ∧ s_is_active se = true ∧ (11 ≤ s_expires_at se)%Z
      ∧ u_is_active u = true ∧ u_id u = 1.
Proof.
  destruct (validate_session_sound sample_store_logged_in "tok" 11
              sample_alice_session eq_refl)
    as (Hs & _ & se & u & Hse & Hu & _ & Ha & Hexp & Hid & Hact & Hinfo).
  split; [reflexivity|]. split; [exact Hs|].
  exists se, u. repeat split; try assumption.
  rewrite Hid. injection Hinfo as <-. reflexivity.
Defined.

(** After [alice] logs out, a new login that draws the same token is
    refused, and the token does not validate. *)
Lemma logged_out_token_never_validates_witness :
  "tok" ∈ map s_session_token (sessions sample_store_logged_in)
  ∧ out_value
      (validate_session
         (fold_left (step sample_hash)
            [OpAuthenticate "alice" "Secret1!" (sample_auth_env 20 "tok")]
            (logout sample_store_logged_in "tok"))
         "tok" 21) = None.
Proof.
  assert (Hin : "tok" ∈ map s_session_token (sessions sample_store_logged_in))
    by apply list_elem_of_here.
  split; [exact Hin|].
  rewrite (logged_out_token_never_validates sample_hash sample_store_logged_in
             "tok" [OpAuthenticate "alice" "Secret1!" (sample_auth_env 20 "tok")]
             21 Hin).
  reflexivity.
Defined.

(** [alice], deactivated while logged in, is not returned again. *)
Lemma deactivation_is_final_witness :
  1 ∈ map u_id (users sample_store_logged_in)
  ∧ (∀ info,
       out_value (validate_session
                    (fold_left (step sample_hash)
                       [OpAuthenticate "alice" "Secret1!" (sample_auth_env 20 "t2")]
                       (out_store (deactivate_user sample_store_logged_in 1)))
                    "tok" 21) = Some info →
       si_user_id info ≠ 1).
Proof.
  assert (Hin : 1 ∈ map u_id (users sample_store_logged_in))
    by apply list_elem_of_here.
  split; [exact Hin|].
  destruct (deactivation_is_final sample_hash sample_store_logged_in 1
              [OpAuthenticate "alice" "Secret1!" (sample_auth_env 20 "t2")] Hin
              eq_refl)
    as [_ Hval].
  exact (Hval "tok" 21).
Defined.

(** [alice] is made [admin] while logged in. *)
Lemma role_change_reaches_open_sessions_witness :
  out_value (validate_session sample_store_logged_in "tok" 11)
  = Some sample_alice_session
  ∧ out_value (validate_session
                 (out_store (update_user_role sample_store_logged_in 1
                               UserRole.ADMIN)) "tok" 11)
    = Some (mkSessionInfo 1 "alice" "alice@x.com" UserRole.ADMIN
              (role_permissions UserRole.ADMIN)).
Proof.
  split; [reflexivity|].
  exact (f_equal out_value
           (role_change_reaches_open_sessions sample_store_logged_in
              UserRole.ADMIN "tok" 11 sample_alice_session eq_refl eq_refl)).
Defined.

(** Id 42 is free and fits; id 2^63 does not fit. *)
Lemma unknown_user_id_reported_as_success_witness :
  (42 ∉ map u_id (users sample_store_registered))
  ∧ (9223372036854775808 ∉ map u_id (users sample_store_registered))
  ∧ update_user_role sample_store_registered 42 UserRole.ADMIN
    = mkOutcome sample_store_registered true []
  ∧ deactivate_user sample_store_registered 42
    = mkOutcome sample_store_registered true []
  ∧ update_user_role sample_store_registered 9223372036854775808 UserRole.ADMIN
    = mkOutcome sample_store_registered false [MSG_ROLE_OVERFLOW]
  ∧ deactivate_user sample_store_registered 9223372036854775808
    = mkOutcome sample_store_registered false [MSG_DEACTIVATE_OVERFLOW].
Proof.
  assert (Hout : 42 ∉ map u_id (users sample_store_registered)).
  { intros H. change (42 ∈ [1]) in H. apply list_elem_of_singleton in H.
    discriminate H. }
  assert (Hbig : 9223372036854775808 ∉ map u_id (users sample_store_registered)).
  { intros H. change (9223372036854775808 ∈ [1]) in H.
    apply list_elem_of_singleton in H. discriminate H. }
  destruct (unknown_user_id_reported_as_success sample_store_registered 42
              UserRole.ADMIN (run_store_consistent sample_hash sample_register)
              Hout) as [Hfits _].
  destruct (unknown_user_id_reported_as_success sample_store_registered
              9223372036854775808 UserRole.ADMIN
              (run_store_consistent sample_hash sample_register) Hbig)
    as [_ Hover].
  destruct (Hfits eq_refl) as [H1 H2]. destruct (Hover eq_refl) as [H3 H4].
  done.
Defined.

(** [alice], locked until 1800000005, fails once more at 2000000000. *)
Lemma lapsed_lockout_relocks_at_first_failure_witness :
  select_user "alice" (users sample_store_locked)
  = Some (set_failure 5 (Some 1800000005) sample_alice)
  ∧ (1800000005 ≤ now_lock_check (sample_auth_env 2000000000 "t7"))%Z
  ∧ select_user "alice"
      (users (out_store (authenticate sample_hash sample_store_locked "alice"
                           "wrong" (sample_auth_env 2000000000 "t7"))))
    = Some (set_failure 6 (Some (2000000000 + timedelta_minutes 30)) sample_alice).
Proof.
  assert (Helapsed : (1800000005 ≤ now_lock_check (sample_auth_env 2000000000 "t7"))%Z)
    by discriminate.
  assert (Hw : sample_hash "wrong"
                 (u_salt (set_failure 5 (Some 1800000005) sample_alice))
               ≠ u_password_hash (set_failure 5 (Some 1800000005) sample_alice))
    by differ.
  split; [reflexivity|]. split; [exact Helapsed|].
  exact (proj2 (lapsed_lockout_relocks_at_first_failure sample_hash
                  (sample_register ++ sample_failures) "alice" "wrong"
                  (sample_auth_env 2000000000 "t7")
                  (set_failure 5 (Some 1800000005) sample_alice) 1800000005
                  eq_refl eq_refl Helapsed eq_refl Hw)).
Defined.

(** The history of [alice] in [sample_store_queries], latest first, cut at
    one entry; with a bound that does not fit, the call raises. *)
Lemma history_own_rows_within_limit_witness :
  get_user_query_history sample_order_history sample_store_queries 1 1
  = Some [mkHistoryEntry "second" "SELECT 3;" None None "error"
            (Some "no such table") 300]
  ∧ (∃ entries,
       get_user_query_history sample_order_history sample_store_queries 1 (-1)
       = Some entries
       ∧ length entries = 2%nat)
  ∧ get_user_query_history sample_order_history sample_store_queries 1
      9223372036854775808 = None.
Proof.
  destruct (history_own_rows_within_limit sample_order_history
              (sort_desc_perm q_created_at) sample_store_queries 1 (-1))
    as (_ & Hsome).
  destruct (history_own_rows_within_limit sample_order_history
              (sort_desc_perm q_created_at) sample_store_queries 1
              9223372036854775808) as (Hnone & _).
  assert (Hneg : (-1 < 0)%Z) by reflexivity.
  split; [reflexivity|]. split.
  - eexists. split; [reflexivity|].
    destruct (Hsome _ eq_refl) as (_ & _ & Hall). exact (Hall Hneg).
  - apply Hnone. by right.
Defined.

Lemma demo_user_history_always_empty_witness :
  length (query_history sample_store_queries) = 2%nat
  ∧ get_user_query_history sample_order_history sample_store_queries 999 50
    = Some [].
Proof.
  split; [reflexivity|].
  exact (demo_user_history_always_empty sample_hash sample_order_history
           (sort_desc_perm q_created_at)
           (sample_register ++
            [OpLogQuery 1 "first" "SELECT 1;" None (Some 1) "success" None 100;
             OpLogQuery 999 "demo" "SELECT 2;" None (Some 1) "success" None 200;
             OpLogQuery 1 "second" "SELECT 3;" None None "error"
                        (Some "no such table") 300])
           50).
Defined.


Lemma listing_keeps_accounts_witness :
  user_summary sample_alice ∈ get_all_users sample_order_users sample_store_registered
  ∧ ∃ e, e ∈ get_all_users sample_order_users
               (fold_left (step sample_hash) [OpDeactivateUser 1]
                  sample_store_registered)
         ∧ us_id e = 1 ∧ us_username e = "alice" ∧ us_email e = "alice@x.com".
Proof.
  assert (Hin : user_summary sample_alice
                  ∈ get_all_users sample_order_users sample_store_registered)
    by apply list_elem_of_here.
  split; [exact Hin|].
  exact (listing_keeps_accounts sample_hash sample_order_users
           (sort_desc_perm u_created_at) sample_store_registered
           [OpDeactivateUser 1] (user_summary sample_alice) Hin).
Defined.

(** [alice], signed in, opens a page at time 11. *)
Lemma require_login_sound_witness :
  require_login sample_hash sample_store_logged_in sample_state_signed_in
    (mkCreateEnv "0000" 11) 11
  = Some (sample_store_logged_in,
          mkSessionState true (Some (SessionDict sample_alice_session))
            (Some "tok") false,
          true)
  ∧ ∃ u, u ∈ users sample_store_logged_in ∧ u_id u = 1 ∧ u_is_active u = true
         ∧ u_role u = UserRole.VIEWER.
Proof.
  split; [reflexivity|].
  destruct (require_login_sound sample_hash sample_store_logged_in
              sample_state_signed_in (mkCreateEnv "0000" 11) 11
              sample_store_logged_in
              (mkSessionState true (Some (SessionDict sample_alice_session))
                 (Some "tok") false)
              eq_refl eq_refl)
    as (info & u & Hinfo & Hu & Hid & Hact & Hrole & _).
  injection Hinfo as <-. exists u. done.
Defined.

(** In demo mode [alice] stays in after her session is logged out. *)
Lemma demo_mode_skips_validation_witness :
  require_login sample_hash (logout sample_store_logged_in "tok") sample_state_demo
    (mkCreateEnv "0000" 11) 11
  = Some (logout sample_store_logged_in "tok", sample_state_demo, true)
  ∧ out_value (validate_session (logout sample_store_logged_in "tok") "tok" 11)
    = None.
Proof.
  destruct (demo_mode_skips_validation sample_hash sample_store_logged_in
              sample_state_demo (mkCreateEnv "0000" 11) 11
              (LoginDict sample_alice_login) eq_refl eq_refl eq_refl)
    as (_ & Hout & _).
  split; [exact (Hout "tok")|reflexivity].
Defined.

(** Outside demo mode she is sent back to the login page. *)
Lemma require_login_forgets_rejected_session_witness :
  require_login sample_hash (logout sample_store_logged_in "tok")
    sample_state_signed_in (mkCreateEnv "0000" 11) 11
  = Some (logout sample_store_logged_in "tok", sample_state_visitor, false)
  ∧ require_permission sample_state_visitor Permission.READ_DATA = false.
Proof.
  split; [reflexivity|].
  destruct (require_login_forgets_rejected_session sample_hash
              (logout sample_store_logged_in "tok") sample_state_signed_in
              (mkCreateEnv "0000" 11) 11 (logout sample_store_logged_in "tok")
              sample_state_visitor eq_refl eq_refl eq_refl) as (_ & _ & Hperm).
  exact (Hperm Permission.READ_DATA).
Defined.

Lemma sign_in_then_require_login_witness :
  (submit_login sample_hash sample_store_registered sample_state_visitor "alice"
     "Secret1!" (sample_auth_env 10 "tok")).1.1 = sample_store_logged_in
  ∧ require_login sample_hash sample_store_logged_in sample_state_signed_in
      (mkCreateEnv "0000" 11) 11
    = Some (sample_store_logged_in,
            mkSessionState true (Some (SessionDict sample_alice_session))
              (Some "tok") false,
            true).
Proof.
  assert (Hne : li_session_token sample_alice_login ≠ EmptyString) by discriminate.
  assert (Hnow : (11 ≤ now_action (sample_auth_env 10 "tok") + session_timeout)%Z)
    by discriminate.
  split; [reflexivity|].
  exact (sign_in_then_require_login sample_hash sample_store_registered
           sample_state_visitor "alice" "Secret1!" (sample_auth_env 10 "tok")
           (mkCreateEnv "0000" 11) 11 sample_alice_login
           (run_store_consistent sample_hash sample_register)
           eq_refl eq_refl eq_refl eq_refl eq_refl Hne Hnow).
Defined.

(** A visitor registers [bob] and picks [admin] in the select box. *)
Lemma registration_without_manage_users_is_guest_witness :
  users (submit_registration sample_hash sample_store_registered
           sample_state_visitor "bob" "bob@x.com" "pw123456" "pw123456"
           UserRole.ADMIN (mkCreateEnv "77aa" 20)).1
  = [sample_alice; sample_bob]
  ∧ u_role sample_bob = UserRole.GUEST.
Proof.
  assert (Hin : sample_bob
                  ∈ users (submit_registration sample_hash sample_store_registered
                             sample_state_visitor "bob" "bob@x.com" "pw123456"
                             "pw123456" UserRole.ADMIN (mkCreateEnv "77aa" 20)).1)
    by exact (list_elem_of_further _ _ _ (list_elem_of_here _ _)).
  split; [reflexivity|].
  destruct (registration_without_manage_users_is_guest sample_hash
              sample_store_registered sample_state_visitor "bob" "bob@x.com"
              "pw123456" "pw123456" UserRole.ADMIN (mkCreateEnv "77aa" 20)
              sample_bob eq_refl Hin) as [Hold|[Hrole _]]; [|exact Hrole].
  reflexivity.
Defined.

(** A password of five characters, two of them outside ASCII. *)
Lemma registration_rejects_without_writing_witness :
  py_len "pâssé" = 5
  ∧ (submit_registration sample_hash sample_store_registered sample_state_visitor
       "bob" "bob@x.com" "pâssé" "pâssé" UserRole.GUEST (mkCreateEnv "77aa" 20)).1
    = sample_store_registered.
Proof.
  split; [reflexivity|].
  apply (registration_rejects_without_writing sample_hash sample_store_registered
           sample_state_visitor "bob" "bob@x.com" "pâssé" "pâssé" UserRole.GUEST
           (mkCreateEnv "77aa" 20)).
  do 5 right. reflexivity.
Defined.

(** The login name ["shared"] is the e-mail address of [anna], account 2, and
    the username of account 3: it selects account 3, whose password logs in
    and whose failures are counted, and [anna] is left alone. *)
Lemma shared_login_name_selects_username :
  select_user "shared" (users sample_store_shared)
  = Some (mkUser 3 "shared" "b@x.com" (sample_hash "pwB" "22cc") "22cc"
            UserRole.GUEST true 2 None 0 None)
  ∧ out_value (authenticate sample_hash sample_store_shared "shared" "pwB"
                 (sample_auth_env 10 "ts"))
    = Some (mkLoginInfo 3 "shared" "b@x.com" UserRole.GUEST "ts"
              (role_permissions UserRole.GUEST))
  ∧ out_value (authenticate sample_hash sample_store_shared "shared" "pwA"
                 (sample_auth_env 10 "ts")) = None
  ∧ select_user "anna"
      (users (out_store (authenticate sample_hash sample_store_shared "shared"
                           "pwA" (sample_auth_env 10 "ts"))))
    = select_user "anna" (users sample_store_shared)
  ∧ select_user "shared"
      (users (out_store (authenticate sample_hash sample_store_shared "shared"
                           "pwA" (sample_auth_env 10 "ts"))))
    = Some (mkUser 3 "shared" "b@x.com" (sample_hash "pwB" "22cc") "22cc"
              UserRole.GUEST true 2 None 1 None).
Proof.
  split; [reflexivity|]. split; [reflexivity|]. split; [reflexivity|].
  split; reflexivity.
Qed.
